(** * BSWLauncher patcher: a shallow embedding of [patcher.go]

    The development follows the pipeline of [main]:
    endpoint probing ([checkCDNStatus]), manifest loading
    ([fetchVersionFile]), local verification ([verifyFiles]), dispatch
    ([downloadFiles], [worker]) and the per-file transfer and install
    ([downloadFile]).

    Conventions.
    - A Go [byte] is a [Z] in [0, 256); a [uint32] is a [Z] in [0, 2^32);
      an [int64] is a [Z] in [-2^63, 2^63).  Wrap-around is written out.
    - A Go [string] is a [string]; [string(bs)] and [[]byte(s)] are
      [string_of_bytes] and [bytes_of_string].
    - The local file system is a finite map from names to files.  A name
      is a path as the program passes it to the [os] package; the program
      never changes its working directory.  [installDirectory] is that
      directory, and the name of the file that
      [filepath.Join(installDirectory, p)] denotes is [install_join p], a
      field of the environment: it is [p] itself for a relative path in
      clean form, and another name for a rooted path.  Two names of one
      file are otherwise not modelled.
    - A modification time is a number of nanoseconds since the Unix
      epoch.
    - Everything outside the repository (the network, the hash function,
      the s2 codec, I/O faults of the operating system) is a field of the
      environment record [Env].
    - The workers of [downloadFiles] run concurrently; they share the job
      queue and each works on the paths of its own job.  The model runs
      the jobs one after the other, in queue order, each in a worker
      chosen by a schedule: it describes the runs in which the jobs do not
      overlap in time.  What a job does by itself is stated for the job
      ([worker_job], [downloadFile]).
    - Of the console output the lines that name a decision are kept. *)

From Stdlib Require Import ZArith Lia Ascii String.
From stdpp Require Import base gmap strings list pretty.

Open Scope Z_scope.

(** ** Bytes, strings and fixed-width integers *)

Definition is_byte (b : Z) : Prop := 0 <= b < 256.

Definition ascii_of_byte (b : Z) : ascii := ascii_of_N (Z.to_N b).
Definition byte_of_ascii (a : ascii) : Z := Z.of_N (N_of_ascii a).

(** [string(bs)] *)
Definition string_of_bytes (bs : list Z) : string :=
  string_of_list_ascii (map ascii_of_byte bs).

(** [[]byte(s)] *)
Definition bytes_of_string (s : string) : list Z :=
  map byte_of_ascii (list_ascii_of_string s).

(** Little-endian value of a byte slice ([binary.LittleEndian.Uint32],
    [Uint64]). *)
Fixpoint le_uint (bs : list Z) : Z :=
  match bs with
  | [] => 0
  | b :: rest => b + 256 * le_uint rest
  end.

(** The [n] little-endian bytes of [v] ([binary.LittleEndian.PutUint32],
    [PutUint64]). *)
Fixpoint le_bytes (n : nat) (v : Z) : list Z :=
  match n with
  | O => []
  | S k => v mod 256 :: le_bytes k (v / 256)
  end.

(** [int64(u)] for a [uint64] [u]. *)
Definition int64_of_uint64 (u : Z) : Z :=
  if u <? 2 ^ 63 then u else u - 2 ^ 64.

(** [uint64(i)] for an [int64] [i]. *)
Definition uint64_of_int64 (i : Z) : Z := i mod 2 ^ 64.

(** ** Times

    [time.Unix(sec, 0)] as the program uses it: the one value of [sec]
    for which it is the zero [time.Time] (1 January of the year 1), and
    its [UnixNano()], whose multiplication wraps around in [int64]. *)
Definition zero_time_sec : Z := - 62135596800.

Definition time_IsZero (sec : Z) : bool := sec =? zero_time_sec.

Definition time_UnixNano (sec : Z) : Z :=
  int64_of_uint64 (uint64_of_int64 (sec * 10 ^ 9)).

(** ** Data model *)

Record File := mkFile {
  PathLen : Z;            (* uint32 *)
  Path : string;
  HashLen : Z;            (* uint32 *)
  Hash : string;
  LastModified : Z        (* int64 *)
}.

Record VersionFile := mkVersionFile {
  Padding : list Z;       (* [16]byte *)
  NumberOfFiles : Z;      (* uint32 *)
  Files : list File
}.

(** The zero value of [File], as [make([]File, n)] fills the slice. *)
Definition zero_File : File := mkFile 0 EmptyString 0 EmptyString 0.

(** The program only ever compares an error with [nil]; the constructors
    name where an error comes from. *)
Inductive error :=
  | ErrEOF
  | ErrUnexpectedEOF
  | ErrNetwork
  | ErrIO
  | ErrInvalid
  | ErrCorrupt.

(** ** Manifest loader: de-obfuscation *)

(** [byte(i%0xFF + 0x69)]: the conversion to [byte] keeps the low 8 bits. *)
Definition xor_key (i : Z) : Z := (Z.rem i 255 + 105) mod 256.

(** [for i := range data { data[i] ^= byte(i%0xFF + 0x69) }], started at
    index [i]. *)
Fixpoint xor_from (i : Z) (data : list Z) : list Z :=
  match data with
  | [] => []
  | b :: rest => Z.lxor b (xor_key i) :: xor_from (i + 1) rest
  end.

Definition deobfuscate (data : list Z) : list Z := xor_from 0 data.

(** ** Manifest loader: reading from the buffer

    [binary.Read(buffer, order, &x)] sizes [x], calls [io.ReadFull] for
    that many bytes and stores the decoded value in [x] only when all of
    them arrived.  On a [bytes.Buffer] a short read consumes what is left,
    so after a failed read the buffer is empty and [x] keeps the value it
    had. *)

Definition readFull (n : nat) (buf : list Z) : (option error * list Z) * list Z :=
  if (n <=? length buf)%nat then (None, take n buf, drop n buf)
  else (Some (match buf with [] => ErrEOF | _ => ErrUnexpectedEOF end), [], []).

(** [binary.Read(buffer, binary.LittleEndian, &x)] for [x] a [uint32]
    holding [cur]. *)
Definition binary_Read_uint32 (cur : Z) (buf : list Z) : (option error * Z) * list Z :=
  match readFull 4 buf with
  | (None, bs, rest) => (None, le_uint bs, rest)
  | (Some e, _, rest) => (Some e, cur, rest)
  end.

(** The same for [x] an [int64]. *)
Definition binary_Read_int64 (cur : Z) (buf : list Z) : (option error * Z) * list Z :=
  match readFull 8 buf with
  | (None, bs, rest) => (None, int64_of_uint64 (le_uint bs), rest)
  | (Some e, _, rest) => (Some e, cur, rest)
  end.

(** The same for [x] a byte array or byte slice holding [cur]: the number
    of bytes asked for is the length of [cur]. *)
Definition binary_Read_bytes (cur : list Z) (buf : list Z) : (option error * list Z) * list Z :=
  match readFull (length cur) buf with
  | (None, bs, rest) => (None, bs, rest)
  | (Some e, _, rest) => (Some e, cur, rest)
  end.

(** [make([]byte, n)] for a [uint32] [n]. *)
Definition make_bytes (n : Z) : list Z := replicate (Z.to_nat n) 0.

(** The body of the loop [for i := range versionFile.Files] of
    [fetchVersionFile]: every error of [binary.Read] is discarded
    ([_ = binary.Read(...)]). *)
Definition read_File (buffer : list Z) : File * list Z :=
  let file := zero_File in
  let '(_, pathLen, buffer) := binary_Read_uint32 (PathLen file) buffer in
  let strBuffer := make_bytes pathLen in
  let '(_, strBuffer, buffer) := binary_Read_bytes strBuffer buffer in
  let path := string_of_bytes strBuffer in
  let '(_, hashLen, buffer) := binary_Read_uint32 (HashLen file) buffer in
  let hashBuffer := make_bytes hashLen in
  let '(_, hashBuffer, buffer) := binary_Read_bytes hashBuffer buffer in
  let hash := string_of_bytes hashBuffer in
  let '(_, lastModified, buffer) := binary_Read_int64 (LastModified file) buffer in
  (mkFile pathLen path hashLen hash lastModified, buffer).

(** The loop itself, over the [n] slots of [versionFile.Files]. *)
Fixpoint read_Files (n : nat) (buffer : list Z) : list File * list Z :=
  match n with
  | O => ([], buffer)
  | S k =>
      let '(file, buffer) := read_File buffer in
      let '(files, buffer) := read_Files k buffer in
      (file :: files, buffer)
  end.

(** [fetchVersionFile] from the de-obfuscation on, for the body [data] that
    [getFile] returned.  The allocation [make([]File, NumberOfFiles)] is
    taken to succeed. *)
Definition decodeVersionFile (data : list Z) : VersionFile :=
  let buffer := deobfuscate data in
  let '(_, padding, buffer) := binary_Read_bytes (replicate 16 0) buffer in
  let '(_, numberOfFiles, buffer) := binary_Read_uint32 0 buffer in
  let '(files, _) := read_Files (Z.to_nat numberOfFiles) buffer in
  mkVersionFile padding numberOfFiles files.

(** ** The manifest wire format, written from its description

    The program only decodes manifests.  The construction below follows
    the description of the format, to state what decoding inverts:
    [[16-byte reserved header][uint32 LE entry count][entry]*], each entry
    [[uint32 LE pathLen][pathLen raw bytes][uint32 LE hashLen][hashLen raw
    bytes][int64 LE unix timestamp]]; the stream is then XOR-obfuscated. *)

Definition encode_File (f : File) : list Z :=
  le_bytes 4 (PathLen f) ++ bytes_of_string (Path f) ++
  le_bytes 4 (HashLen f) ++ bytes_of_string (Hash f) ++
  le_bytes 8 (uint64_of_int64 (LastModified f)).

Definition encode_plain (v : VersionFile) : list Z :=
  Padding v ++ le_bytes 4 (NumberOfFiles v) ++ concat (map encode_File (Files v)).

Definition encodeVersionFile (v : VersionFile) : list Z :=
  xor_from 0 (encode_plain v).

(** Source data a manifest can be built from: lengths are the lengths of
    the strings and every number fits its field. *)
Definition wf_File (f : File) : Prop :=
  PathLen f = Z.of_nat (String.length (Path f)) /\ PathLen f < 2 ^ 32 /\
  HashLen f = Z.of_nat (String.length (Hash f)) /\ HashLen f < 2 ^ 32 /\
  - 2 ^ 63 <= LastModified f < 2 ^ 63.

Definition wf_VersionFile (v : VersionFile) : Prop :=
  length (Padding v) = 16%nat /\
  NumberOfFiles v = Z.of_nat (length (Files v)) /\ NumberOfFiles v < 2 ^ 32 /\
  Forall wf_File (Files v).

(** ** Environment

    What the program reaches through libraries and the operating system. *)

(** A [GET] request: its URL and, when the [Range] header
    ["bytes=<n>-"] was added, the offset [n]. *)
Record request := mkRequest {
  req_url : string;
  req_range : option Z
}.

(** What [client.Do] gives: an error, or a response whose body delivers
    [body] and then ends ([complete = true]) or breaks with a read error.
    The program looks at neither the status code nor the headers. *)
Inductive response :=
  | DoError
  | Response (body : list Z) (complete : bool).

Record fnode := mkfile {
  f_data : list Z;
  f_mode : Z;             (* os.FileMode *)
  f_mtime : Z             (* modification time: nanoseconds since
                             the Unix epoch *)
}.

Record Env := mkEnv {
  http_head : string -> option Z;           (* [http.Head]: the status code *)
  http_do : request -> response;            (* [client.Do], [http.Get] *)
  new_request_ok : string -> bool;          (* [http.NewRequest] accepts the URL *)
  blake2b_256 : list Z -> list Z;           (* the digest of a content *)
  s2_decode : list Z -> list Z * option error;
                                            (* [s2.NewReader]: the output
                                               produced, then end or error *)
  open_fails : string -> bool;              (* faults of [os.Open] *)
  stat_fails : string -> bool;              (* of [os.Stat], [File.Stat] *)
  read_fails : string -> bool;              (* of reading an open file *)
  create_fails : string -> bool;            (* of [os.Create] *)
  append_fails : string -> bool;            (* of [os.OpenFile] for append *)
  chtimes_fails : string -> bool;           (* of [os.Chtimes] *)
  remove_fails : string -> bool;            (* of [os.Remove] *)
  now : Z;                                  (* the clock, for written files *)
  create_mode : Z;                          (* the mode of a created file *)
  install_join : string -> string           (* [filepath.Join(installDirectory, p)]:
                                               the name, in the file system
                                               below, of the file it denotes *)
}.

(** ** The world: file system and trace of effects *)

Inductive event :=
  | EvOpen (p : string)                     (* [os.Open] *)
  | EvStat (p : string)                     (* [os.Stat], [File.Stat] *)
  | EvRead (p : string)                     (* [io.Copy] out of a file *)
  | EvCreate (p : string)                   (* [os.Create] *)
  | EvOpenAppend (p : string)               (* [os.OpenFile], append mode *)
  | EvWrite (p : string) (data : list Z)    (* [io.Copy] into a file *)
  | EvRemove (p : string)                   (* [os.Remove] *)
  | EvChtimes (p : string) (t : Z)          (* [os.Chtimes] *)
  | EvRequest (r : request)                 (* [client.Do] *)
  | EvPrint (s : string)                    (* a line on the console *)
  | EvDownloadFile (p : string) (url : string) (force : bool)
                                            (* entry into [downloadFile] *)
  | EvDone.                                 (* [wg.Done] *)

Record world := mkWorld {
  fs : gmap string fnode;
  trace : list event
}.

(** The path an event writes to, if it is a write (of content, of
    metadata, or a removal), attempted or done. *)
Definition written_path (e : event) : option string :=
  match e with
  | EvCreate p | EvOpenAppend p | EvWrite p _ | EvRemove p | EvChtimes p _ => Some p
  | _ => None
  end.

(** State passing, with the source's [x, err := f(...)] shape. *)
Definition Op (A : Type) : Type := world -> A * world.

Definition ret {A : Type} (a : A) : Op A := fun w => (a, w).

Definition bind {A B : Type} (m : Op A) (k : A -> Op B) : Op B :=
  fun w => let (a, w') := m w in k a w'.

Notation "x <- m ;; k" := (bind m (fun x => k))
  (at level 100, m at next level, right associativity).
Notation "'let*' p := m 'in' k" := (bind m (fun x => let 'p := x in k))
  (at level 10, p pattern, m at level 200, k at level 200).
Notation "m ;; k" := (bind m (fun _ => k))
  (at level 100, right associativity).

Definition emit (e : event) : Op unit :=
  fun w => (tt, mkWorld (fs w) (trace w ++ [e])).

Definition get_fs : Op (gmap string fnode) := fun w => (fs w, w).

Definition put_fs (m : gmap string fnode) : Op unit :=
  fun w => (tt, mkWorld m (trace w)).

Definition println (s : string) : Op unit := emit (EvPrint s).

(** ** Operating-system calls

    A call works on the file system as the Go documentation describes it.
    When the operating system refuses a call (missing directory,
    permissions, full disk, ...) is not modelled: each call fails where
    the corresponding fault field of [Env] says so, and the calls do not
    look at the mode of a file themselves. *)

Section OS.
Variable E : Env.

(** [os.Open(p)]: a handle for reading, or an error. *)
Definition os_Open (p : string) : Op (option string * option error) :=
  emit (EvOpen p) ;;
  m <- get_fs ;;
  match m !! p with
  | None => ret (None, Some ErrIO)
  | Some _ => if open_fails E p then ret (None, Some ErrIO) else ret (Some p, None)
  end.

(** [os.Stat(p)], and [f.Stat()] for an open file [f] at [p]. *)
Definition os_Stat (p : string) : Op (option fnode * option error) :=
  emit (EvStat p) ;;
  m <- get_fs ;;
  match m !! p with
  | None => ret (None, Some ErrIO)
  | Some f => if stat_fails E p then ret (None, Some ErrIO) else ret (Some f, None)
  end.

(** [os.Create(p)]: creates the file or truncates it, and gives a handle
    for writing. *)
Definition os_Create (p : string) : Op (option string * option error) :=
  emit (EvCreate p) ;;
  if create_fails E p then ret (None, Some ErrIO)
  else
    m <- get_fs ;;
    let mode := match m !! p with Some f => f_mode f | None => create_mode E end in
    put_fs (<[p := mkfile [] mode (now E)]> m) ;;
    ret (Some p, None).

(** [os.OpenFile(p, os.O_APPEND|os.O_CREATE|os.O_WRONLY, 0777)]. *)
Definition os_OpenFile_append (p : string) : Op (option string * option error) :=
  emit (EvOpenAppend p) ;;
  if append_fails E p then ret (None, Some ErrIO)
  else
    m <- get_fs ;;
    match m !! p with
    | Some _ => ret (Some p, None)
    | None => put_fs (<[p := mkfile [] (create_mode E) (now E)]> m) ;; ret (Some p, None)
    end.

(** Writing [data] at the end of the file behind a handle. *)
Definition file_Write (p : string) (data : list Z) : Op unit :=
  emit (EvWrite p data) ;;
  m <- get_fs ;;
  match m !! p with
  | Some f => put_fs (<[p := mkfile (f_data f ++ data) (f_mode f) (now E)]> m)
  | None => ret tt
  end.

(** Reading the whole file behind a handle. *)
Definition file_ReadAll (p : string) : Op (list Z * option error) :=
  emit (EvRead p) ;;
  m <- get_fs ;;
  match m !! p with
  | Some f => if read_fails E p then ret ([], Some ErrIO) else ret (f_data f, None)
  | None => ret ([], Some ErrIO)
  end.

(** [os.Remove(p)]; the caller discards its error. *)
Definition os_Remove (p : string) : Op unit :=
  emit (EvRemove p) ;;
  if remove_fails E p then ret tt
  else m <- get_fs ;; put_fs (delete p m).

(** The modification time that [os.Chtimes(p, t, t)] with
    [t = time.Unix(sec, 0)] leaves on a file whose time was [old]: a zero
    [t] leaves the time as it is, any other [t] is set through
    [t.UnixNano()]. *)
Definition Chtimes_mtime (sec old : Z) : Z :=
  if time_IsZero sec then old else time_UnixNano sec.

(** [os.Chtimes(p, t, t)] with [t = time.Unix(sec, 0)]; the caller
    discards its error. *)
Definition os_Chtimes (p : string) (sec : Z) : Op unit :=
  emit (EvChtimes p sec) ;;
  if chtimes_fails E p then ret tt
  else
    m <- get_fs ;;
    match m !! p with
    | Some f =>
        put_fs (<[p := mkfile (f_data f) (f_mode f) (Chtimes_mtime sec (f_mtime f))]> m)
    | None => ret tt
    end.

(** [io.Copy(out, src)] into a file handle, where the source delivers
    [data] and then ends or fails with [src_err].  A nil handle (left by a
    failed [os.Create]) refuses the copy. *)
Definition io_Copy_to (out : option string) (data : list Z) (src_err : option error)
  : Op (option error) :=
  match out with
  | None => ret (Some ErrInvalid)
  | Some p => file_Write p data ;; ret src_err
  end.

(** [client.Do(x)]. *)
Definition client_Do (x : request) : Op response :=
  emit (EvRequest x) ;; ret (http_do E x).

End OS.

(** ** Endpoint prober and manifest loader *)

Section Program.
Variable E : Env.

Definition cdn_url (cdn : Z) (rest : string) : string :=
  "https://cdn" +:+ pretty cdn +:+ ".burningsw.to/" +:+ rest.

Definition NumCDNs : nat := 5.

(** [checkCDNStatus]: the indices in [0, NumCDNs) whose [HEAD] request
    returned without error and with status 200, and their number. *)
Definition checkCDNStatus : list Z * Z :=
  let online :=
    filter (fun i => http_head E (cdn_url i EmptyString) = Some 200)
           (map Z.of_nat (seq 0 NumCDNs)) in
  (online, Z.of_nat (length online)).

(** [getFile]: [http.Get] then [ioutil.ReadAll]. *)
Definition getFile (path : string) : list Z * option error :=
  match http_do E (mkRequest path None) with
  | DoError => ([], Some ErrNetwork)
  | Response body true => (body, None)
  | Response body false => (body, Some ErrNetwork)
  end.

(** [fetchVersionFile], for a non-empty [onlineCDNs] as [main] ensures;
    [None] stands for the out-of-range panic of [onlineCDNs[0]]. *)
Definition fetchVersionFile (onlineCDNs : list Z)
  : option (option VersionFile * option error) :=
  match onlineCDNs with
  | [] => None
  | cdn :: _ =>
      let '(data, err) := getFile (cdn_url cdn "version.bin") in
      match err with
      | Some e => Some (None, Some e)
      | None => Some (Some (decodeVersionFile data), None)
      end
  end.

(** ** Inventory verifier *)

(** [hex.EncodeToString]: two lower-case digits per byte. *)
Definition hextable : string := "0123456789abcdef".

Definition hex_digit (n : Z) : ascii :=
  match String.get (Z.to_nat n) hextable with
  | Some c => c
  | None => "0"%char
  end.

Fixpoint hex_EncodeToString (bs : list Z) : string :=
  match bs with
  | [] => EmptyString
  | b :: rest =>
      String (hex_digit (Z.shiftr b 4))
        (String (hex_digit (Z.land b 15)) (hex_EncodeToString rest))
  end.

(** [os.FileMode(0444)] *)
Definition mode_0444 : Z := 4 * 64 + 4 * 8 + 4.

(** What one iteration of the loop of [verifyFiles] decides, named after
    the line it prints. *)
Inductive verdict :=
  | NeedDownload     (* "Need to download.": appended to [toDownload] *)
  | Custom           (* "File is custom (read-only), skipping." *)
  | OK.              (* "OK." *)

#[global] Instance verdict_eq_dec : EqDecision verdict.
Proof. solve_decision. Defined.

(** The body of the loop of [verifyFiles] for one manifest entry.  The
    file is opened under [filepath.Join(installDirectory, fileName)];
    [os.Chtimes] is given [file.Path] itself. *)
Definition verifyFile (file : File) : Op verdict :=
  let fileName := Path file in
  emit (EvPrint ("Checking " +:+ fileName +:+ ": ")) ;;
  let* (localFile, err) := os_Open E (install_join E fileName) in
  match localFile, err with
  | Some localFile, None =>
      let* (fi, err) := os_Stat E localFile in
      if match fi, err with
         | Some fi, None => f_mode fi =? mode_0444
         | _, _ => false
         end
      then
        println "File is custom (read-only), skipping." ;;
        ret Custom
      else
        let* (content, err) := file_ReadAll E localFile in
        match err with
        | Some _ =>
            println "Need to download." ;;
            ret NeedDownload
        | None =>
            let hashBytes := blake2b_256 E content in
            let hash := hex_EncodeToString hashBytes in
            if negb (String.eqb hash (Hash file)) then
              println "Need to download." ;;
              ret NeedDownload
            else
              os_Chtimes E (Path file) (LastModified file) ;;
              println "OK." ;;
              ret OK
        end
  | _, _ =>
      println "Need to download." ;;
      ret NeedDownload
  end.

(** The loop of [verifyFiles], with [toDownload] as accumulated so far. *)
Fixpoint verifyFiles_from (toDownload : list File) (files : list File) : Op (list File) :=
  match files with
  | [] => ret toDownload
  | file :: rest =>
      v <- verifyFile file ;;
      match v with
      | NeedDownload => verifyFiles_from (toDownload ++ [file]) rest
      | _ => verifyFiles_from toDownload rest
      end
  end.

Definition verifyFiles (files : list File) : Op (list File) :=
  verifyFiles_from [] files.

(** ** Resumable fetcher and install finalizer *)

(** How a call ends: it returns (an error or [nil]), or the process exits
    in [log.Fatal]. *)
Inductive outcome :=
  | Returned (err : option error)
  | Exited.

(** [downloadFile], first part (up to the first [io.Copy]): the request,
    the partial file and the transfer into it.  It gives [None] when the
    function goes on, and how it ended otherwise.  The progress bar is
    left out, and the "Resuming" line is kept without the byte position. *)
Definition fetch_partial (file : File) (url : string) (force : bool) : Op (option outcome) :=
  let filename := Path file in
  let* (info, err) := os_Stat E (filename +:+ ".tmp") in
  if negb (new_request_ok E url) then ret (Some Exited) else
  let x := mkRequest url None in
  let* (early, currPosition, x, out) :=
    match force, info, err with
    | false, Some info, None =>
        let currPosition := Z.of_nat (length (f_data info)) in
        let x := mkRequest url (Some currPosition) in
        emit (EvPrint ("Resuming " +:+ filename)) ;;
        let* (out, err) := os_OpenFile_append E (filename +:+ ".tmp") in
        ret (err, currPosition, x, out)
    | _, _, _ =>
        let* (out, _) := os_Create E (filename +:+ ".tmp") in
        ret (None, 0, x, out)
    end in
  match early with
  | Some e => ret (Some (Returned (Some e)))
  | None =>
      resp <- client_Do E x ;;
      match resp with
      | DoError => ret (Some (Returned (Some ErrNetwork)))
      | Response body complete =>
          err <- io_Copy_to E out body (if complete then None else Some ErrNetwork) ;;
          match err with
          | Some e => ret (Some (Returned (Some e)))
          | None => ret None
          end
      end
  end.

(** [downloadFile], second part (from [os.Create(filename)] on): the
    decompression into the final path. *)
Definition install (file : File) : Op outcome :=
  let filename := Path file in
  let* (decompress, err) := os_Create E filename in
  match err with
  | Some e => ret (Returned (Some e))
  | None =>
      let* (out, err) := os_Open E (filename +:+ ".tmp") in
      match out, err with
      | Some out, None =>
          let* (packed, rerr) := file_ReadAll E out in
          let '(plain, derr) :=
            match rerr with
            | Some e => ([], Some e)
            | None => s2_decode E packed
            end in
          err <- io_Copy_to E decompress plain derr ;;
          match err with
          | Some e => ret (Returned (Some e))
          | None =>
              os_Remove E (filename +:+ ".tmp") ;;
              os_Chtimes E (Path file) (LastModified file) ;;
              emit EvDone ;;
              ret (Returned None)
          end
      | _, _ => ret (Returned (Some (default ErrIO err)))
      end
  end.

(** [downloadFile(file, url, wg, force)]. *)
Definition downloadFile (file : File) (url : string) (force : bool) : Op outcome :=
  emit (EvDownloadFile (Path file) url force) ;;
  r <- fetch_partial file url force ;;
  match r with
  | Some ended => ret ended
  | None => install file
  end.

(** ** Fetch dispatcher *)

Definition DefaultForceDownload : bool := false.

(** [strings.ReplaceAll(formattedUrl, backslash, "/")] *)
Definition backslash : ascii := ascii_of_nat 92.

Fixpoint replace_backslash (s : string) : string :=
  match s with
  | EmptyString => EmptyString
  | String c rest =>
      String (if Ascii.eqb c backslash then "/"%char else c) (replace_backslash rest)
  end.

(** How the processing of one job ends. *)
Inductive job_end :=
  | JobInstalled     (* [downloadFile] returned [nil] *)
  | JobAbandoned     (* "failed again, check manually." *)
  | JobExited.       (* the process exited in [log.Fatal] *)

(** The inner [for { ... }] of [worker] for the job [j], entered with the
    flag [force]; [fuel] bounds the number of iterations and [None] means
    it ran out. *)
Fixpoint retry_loop (fuel : nat) (j : File) (formattedUrl : string) (force : bool)
  : Op (option job_end) :=
  match fuel with
  | O => ret None
  | S fuel =>
      r <- downloadFile j formattedUrl force ;;
      match r with
      | Exited => ret (Some JobExited)
      | Returned None => ret (Some JobInstalled)
      | Returned (Some err) =>
          if force then
            println ("Download for " +:+ formattedUrl +:+ " failed again, check manually.") ;;
            emit EvDone ;;
            ret (Some JobAbandoned)
          else
            println (" (" +:+ formattedUrl +:+ "), Retrying") ;;
            retry_loop fuel j formattedUrl true
      end
  end.

(** The URL that worker [id] builds for [j]; [None] stands for the
    out-of-range panic of [onlineCDNs[id%onlineServers]]. *)
Definition formattedUrl_of (onlineCDNs : list Z) (id : nat) (j : File) : option string :=
  match onlineCDNs !! (id mod length onlineCDNs)%nat with
  | Some cdn => Some (replace_backslash (cdn_url cdn (Path j)))
  | None => None
  end.

(** One iteration of [for j := range jobs] in worker [id]. *)
Definition worker_job (fuel : nat) (onlineCDNs : list Z) (id : nat) (j : File)
  : Op (option job_end) :=
  match formattedUrl_of onlineCDNs id j with
  | Some formattedUrl => retry_loop fuel j formattedUrl DefaultForceDownload
  | None => ret None
  end.

(** [downloadFiles]: the jobs leave the channel in the order of
    [toDownload]; the model runs them one after the other, the [k]-th job
    in the worker [sched k], and stops when the process exits.  The
    overlap in time of the jobs of different workers is not modelled. *)
Fixpoint downloadFiles_from (fuel : nat) (onlineCDNs : list Z) (sched : nat -> nat)
    (k : nat) (toDownload : list File) : Op (option (list job_end)) :=
  match toDownload with
  | [] => ret (Some [])
  | j :: rest =>
      r <- worker_job fuel onlineCDNs (sched k) j ;;
      match r with
      | None => ret None
      | Some JobExited => ret (Some [JobExited])
      | Some e =>
          rs <- downloadFiles_from fuel onlineCDNs sched (S k) rest ;;
          ret (option_map (cons e) rs)
      end
  end.

Definition downloadFiles (fuel : nat) (onlineCDNs : list Z) (sched : nat -> nat)
    (toDownload : list File) : Op (option (list job_end)) :=
  downloadFiles_from fuel onlineCDNs sched 0 toDownload.

(** ** The pipeline *)

Inductive run_end :=
  | FatalNoServers       (* "There are no download servers online. ..." *)
  | FatalVersionFile     (* "Could not fetch the version file." *)
  | Ran (queued : list File) (jobs : list job_end)
  | Stuck.               (* out of fuel, or a panic *)

(** [main], with [runtime.NumCPU()] workers of which [sched] picks one
    per job. *)
Definition main (fuel : nat) (sched : nat -> nat) : Op run_end :=
  let '(onlineCDNs, onlineServers) := checkCDNStatus in
  if onlineServers =? 0 then ret FatalNoServers
  else
    match fetchVersionFile onlineCDNs with
    | Some (Some versionFile, None) =>
        toDownload <- verifyFiles (Files versionFile) ;;
        r <- downloadFiles fuel onlineCDNs sched toDownload ;;
        match r with
        | Some jobs => ret (Ran toDownload jobs)
        | None => ret Stuck
        end
    | Some (_, _) => ret FatalVersionFile
    | None => ret Stuck
    end.

End Program.

(** ** Derived notions used in the statements *)

(** The verdict of the verifier on an entry in a given world. *)
Definition classify (E : Env) (file : File) (w : world) : verdict :=
  fst (verifyFile E file w).

(** The name of the file the verifier opens for an entry. *)
Definition local_path (E : Env) (file : File) : string :=
  install_join E (Path file).

(** The [force] flags of the calls of [downloadFile] recorded in a trace. *)
Definition attempts (t : list event) : list bool :=
  omap (fun e => match e with EvDownloadFile _ _ force => Some force | _ => None end) t.

(** The requests recorded in a trace. *)
Definition requests (t : list event) : list request :=
  omap (fun e => match e with EvRequest r => Some r | _ => None end) t.


(** The hex digest the verifier computes for a content. *)
Definition digest (E : Env) (content : list Z) : string :=
  hex_EncodeToString (blake2b_256 E content).

(** ** A small concrete environment

    A stand-in digest and codec, a server given as a function and no I/O
    faults: enough to run the model on examples. *)

Definition toy_digest (content : list Z) : list Z :=
  [Z.of_nat (length content) mod 256; le_uint content mod 256].

(** The toy codec: a payload is the byte 83 followed by the content. *)
Definition toy_decode (packed : list Z) : list Z * option error :=
  match packed with
  | 83 :: plain => (plain, None)
  | _ => ([], Some ErrCorrupt)
  end.

Definition never : string -> bool := fun _ => false.

(** [filepath.Join] with the working directory, for the names of the
    examples: a relative name denotes the file of that name, and under a
    rooted name the working directory is put before the root. *)
Definition toy_join (p : string) : string :=
  match p with
  | String "/" rest => rest
  | _ => p
  end.

Definition toy_env_with (decode : list Z -> list Z * option error)
    (server : request -> response) : Env :=
  mkEnv (fun _ => Some 200) server (fun _ => true) toy_digest decode
        never never never never never never never 1000 (6 * 64 + 4 * 8 + 4) toy_join.

Definition toy_env (server : request -> response) : Env :=
  toy_env_with toy_decode server.

(** A server that has the manifest [data] and nothing else. *)
Definition manifest_only (data : list Z) : request -> response :=
  fun r =>
    if String.eqb (req_url r) "https://cdn0.burningsw.to/version.bin"
    then Response data true else DoError.

(** A server that fails every request. *)
Definition offline : request -> response := fun _ => DoError.

(** A server that answers every request with the same body. *)
Definition always (body : list Z) : request -> response :=
  fun _ => Response body true.

Definition empty_world : world := mkWorld ∅ [].

(** A world with one file. *)
Definition one_file (p : string) (content : list Z) (mode : Z) : world :=
  mkWorld {[ p := mkfile content mode 0 ]} [].

(** A manifest that declares two entries and holds none. *)
Definition truncated_manifest : list Z :=
  encodeVersionFile (mkVersionFile (replicate 16 0) 2 []).

(** An entry for a file whose content is the single byte 97: its toy
    digest is the two bytes 1 and 97. *)
Definition sample_File : File :=
  mkFile 5 "a.bin" 4 "0161" 1700000000.

Definition sample_content : list Z := [97].

(** The payload that the toy codec decodes to [sample_content]. *)
Definition sample_payload : list Z := [83; 97].

(** A codec that accepts the one payload [good] and nothing else, as a
    codec that checks a checksum does. *)
Definition checked_decode (good plain : list Z) (packed : list Z) : list Z * option error :=
  if decide (packed = good) then (plain, None) else ([], Some ErrCorrupt).

(** A server that has the manifest [data], and [body] under every other
    URL. *)
Definition serving (data body : list Z) : request -> response :=
  fun r =>
    if String.eqb (req_url r) "https://cdn0.burningsw.to/version.bin"
    then Response data true else Response body true.



Definition first_worker : nat -> nat := fun _ => 0%nat.

Definition mode_0644 : Z := 6 * 64 + 4 * 8 + 4.
Definition mode_0440 : Z := 4 * 64 + 4 * 8.
Definition mode_0555 : Z := 5 * 64 + 5 * 8 + 5.

Definition sample_manifest : VersionFile :=
  mkVersionFile (replicate 16 0) 1 [sample_File].

(** The decision of [verifyFile], read off its branches, as a function of
    the file found under the name the verifier opens. *)
Definition verdict_of (E : Env) (file : File) (local : option fnode) : verdict :=
  match local with
  | None => NeedDownload
  | Some f =>
      if open_fails E (local_path E file) then NeedDownload
      else if negb (stat_fails E (local_path E file)) && (f_mode f =? mode_0444) then Custom
      else if read_fails E (local_path E file) then NeedDownload
      else if String.eqb (digest E (f_data f)) (Hash file) then OK
      else NeedDownload
  end.

(** Content and mode of a file, without its modification time. *)
Definition file_body (f : fnode) : list Z * Z := (f_data f, f_mode f).

(** Two file systems hold the same files up to modification times. *)
Definition same_files (m1 m2 : gmap string fnode) : Prop :=
  forall q, file_body <$> (m1 !! q) = file_body <$> (m2 !! q).

(** The events one iteration of the verifier may add for an entry with
    verdict [v]: it opens and stats the entry's file, reads it unless it
    is skipped as custom, and sets its modification time when it is up to
    date. *)
Definition verify_event (E : Env) (file : File) (v : verdict) (e : event) : Prop :=
  match e with
  | EvOpen p | EvStat p => p = local_path E file
  | EvRead p => p = local_path E file /\ v <> Custom
  | EvChtimes p t => p = Path file /\ v = OK /\ t = LastModified file
  | EvPrint _ => True
  | _ => False
  end.

(** The events the first part of [downloadFile] may add for an entry: it
    works on the partial path and sends requests. *)
Definition transfer_event (file : File) (e : event) : Prop :=
  match e with
  | EvStat p | EvOpenAppend p | EvCreate p | EvWrite p _ => p = Path file +:+ ".tmp"
  | EvRequest _ | EvPrint _ => True
  | _ => False
  end.

(** The events the second part may add: it creates and writes the final
    path, reads and removes the partial path. *)
Definition install_event (file : File) (e : event) : Prop :=
  match e with
  | EvCreate p | EvWrite p _ => p = Path file
  | EvOpen p | EvRead p | EvRemove p => p = Path file +:+ ".tmp"
  | EvChtimes p t => p = Path file /\ t = LastModified file
  | EvDone => True
  | _ => False
  end.

(** The events the processing of a job may add. *)
Definition job_event (j : File) (e : event) : Prop :=
  transfer_event j e \/ install_event j e \/
  match e with
  | EvDownloadFile p _ _ => p = Path j
  | EvPrint _ | EvDone => True
  | _ => False
  end.

(** The environments and worlds of the examples. *)

Definition offline_env : Env := toy_env offline.

Definition truncated_env : Env := toy_env (manifest_only truncated_manifest).

Definition sample_env : Env :=
  toy_env_with (checked_decode sample_payload sample_content)
    (serving (encodeVersionFile sample_manifest) sample_payload).


Definition garbage_env : Env := toy_env (always [1; 2; 3]).

Definition installed_world : world := one_file "a.bin" sample_content mode_0644.


Definition group_readonly_world : world := one_file "a.bin" [98] mode_0440.

Definition partial_world : world := one_file "a.bin.tmp" [83; 97] mode_0644.

(** ** Further notions used in the statements *)

(** The number of [wg.Done] calls recorded in a trace. *)
Definition done_count (t : list event) : nat :=
  length (omap (fun e => match e with EvDone => Some tt | _ => None end) t).

(** The operating system lets [downloadFile] work on the two paths of an
    entry: none of the calls it makes on them fails. *)
Definition fault_free (E : Env) (file : File) : Prop :=
  stat_fails E (Path file +:+ ".tmp") = false /\
  append_fails E (Path file +:+ ".tmp") = false /\
  create_fails E (Path file +:+ ".tmp") = false /\
  open_fails E (Path file +:+ ".tmp") = false /\
  read_fails E (Path file +:+ ".tmp") = false /\
  remove_fails E (Path file +:+ ".tmp") = false /\
  create_fails E (Path file) = false /\
  chtimes_fails E (Path file) = false.

(** The mode of the file that [os.Create(p)] leaves at [p]. *)
Definition mode_after_create (E : Env) (m : gmap string fnode) (p : string) : Z :=
  match m !! p with
  | Some f => f_mode f
  | None => create_mode E
  end.

(** The number of [wg.Done] calls behind a job end. *)
Definition acknowledged (r : job_end) : nat :=
  match r with JobExited => 0 | _ => 1 end.

(** Further environments and worlds of the examples. *)

(** A server that has one payload under every URL and honours the range
    of a request. *)
Definition range_server (body : list Z) : request -> response :=
  fun r =>
    match req_range r with
    | Some k => Response (drop (Z.to_nat k) body) true
    | None => Response body true
    end.

Definition resumable_env : Env := toy_env (range_server sample_payload).

(** The first byte of the sample payload, left by an interrupted run. *)
Definition half_world : world := one_file "a.bin.tmp" [83] mode_0644.

(** An environment in which [http.NewRequest] rejects every URL. *)
Definition rejecting_env : Env :=
  mkEnv (fun _ => Some 200) offline (fun _ => false) toy_digest toy_decode
        never never never never never never never 1000 mode_0644 toy_join.

(** An environment in which only the endpoint 2 is online, and it has no
    manifest. *)
Definition lone_env : Env :=
  mkEnv (fun url => if String.eqb url "https://cdn2.burningsw.to/" then Some 200 else Some 503)
        offline (fun _ => true) toy_digest toy_decode
        never never never never never never never 1000 mode_0644 toy_join.

(** A world with a file that no manifest of the examples names. *)
Definition notes_world : world := one_file "notes.txt" [1] mode_0644.

(** ** Notions used in the statements about installs and whole runs *)

(** [sec * 10^9] nanoseconds fit in an [int64] (the years 1678 to 2262):
    the times for which [UnixNano] is exact. *)
Definition nano_fits (sec : Z) : Prop := - 2 ^ 63 <= sec * 10 ^ 9 < 2 ^ 63.

(** The file that a successful [downloadFile] leaves at the final path
    of an entry, in a file system that was [m] before: the decoded
    content, the mode [os.Create] found or gave, and the time that
    [os.Chtimes] makes of the time of the write. *)
Definition installed_file (E : Env) (m : gmap string fnode) (file : File)
    (plain : list Z) : fnode :=
  mkfile plain (mode_after_create E m (Path file))
         (Chtimes_mtime (LastModified file) (now E)).











(** * Properties *)

(** ** Proof automation for computations *)

Ltac unfold_ops :=
  unfold io_Copy_to, client_Do, println in *;
  unfold os_Open, os_Stat, os_Create, os_OpenFile_append, file_Write, file_ReadAll,
    os_Remove, os_Chtimes, emit, get_fs, put_fs, bind, ret in *.

Ltac step_ops := unfold_ops; cbn [fst snd fs trace] in *.

(** Runs a computation through all its branches. *)
Ltac run_ops :=
  repeat (first [ progress (cbn [fst snd fs trace] in * )
                | progress simplify_map_eq
                | case_match ]).

Ltac trace_eq := rewrite <- ?app_assoc; reflexivity.

(** The trace is the old one followed by events that all satisfy the
    predicate at hand. *)
Ltac trace_done :=
  eexists; split;
  [ trace_eq
  | repeat (apply List.Forall_cons; [cbn; auto |]); apply List.Forall_nil ].

Ltac in_trace :=
  repeat (first [ apply list_elem_of_here | apply list_elem_of_further ]).

Ltac not_in_trace :=
  repeat (apply not_elem_of_cons; split; [discriminate |]); apply not_elem_of_nil.

Ltac trace_facts := cbn; split; [reflexivity |]; split; [in_trace | not_in_trace].


(** ** Bytes and fixed-width integers *)

Lemma ascii_of_byte_of_ascii (a : ascii) : ascii_of_byte (byte_of_ascii a) = a.
Proof.
  unfold ascii_of_byte, byte_of_ascii.
  rewrite N2Z.id. apply ascii_N_embedding.
Qed.

Lemma byte_of_ascii_is_byte (a : ascii) : is_byte (byte_of_ascii a).
Proof.
  unfold is_byte, byte_of_ascii.
  pose proof (N_ascii_bounded a). lia.
Qed.

Lemma string_of_bytes_of_string (s : string) : string_of_bytes (bytes_of_string s) = s.
Proof.
  unfold string_of_bytes, bytes_of_string.
  rewrite map_map.
  rewrite (map_ext _ id) by apply ascii_of_byte_of_ascii.
  rewrite map_id. apply string_of_list_ascii_of_string.
Qed.

Lemma length_bytes_of_string (s : string) : length (bytes_of_string s) = String.length s.
Proof.
  unfold bytes_of_string. rewrite length_map.
  induction s as [|c s IH]; simpl; congruence.
Qed.

Lemma length_le_bytes (n : nat) (v : Z) : length (le_bytes n v) = n.
Proof. revert v. induction n as [|n IH]; intros v; simpl; [reflexivity | now rewrite IH]. Qed.

Lemma le_uint_le_bytes (n : nat) (v : Z) :
  0 <= v < 256 ^ Z.of_nat n -> le_uint (le_bytes n v) = v.
Proof.
  revert v. induction n as [|n IH]; intros v Hv.
  - simpl in *. lia.
  - cbn [le_bytes le_uint].
    rewrite IH.
    + pose proof (Z.div_mod v 256). lia.
    + rewrite Nat2Z.inj_succ, Z.pow_succ_r in Hv by lia.
      split.
      * apply Z.div_pos; lia.
      * apply Z.div_lt_upper_bound; lia.
Qed.

Lemma int64_roundtrip (i : Z) :
  - 2 ^ 63 <= i < 2 ^ 63 -> int64_of_uint64 (uint64_of_int64 i) = i.
Proof.
  intros Hi. unfold int64_of_uint64, uint64_of_int64.
  destruct (Z_lt_le_dec i 0) as [Hneg | Hpos].
  - replace (i mod 2 ^ 64) with (i + 2 ^ 64).
    + destruct (Z.ltb_spec (i + 2 ^ 64) (2 ^ 63)); lia.
    + apply Z.mod_unique with (q := -1); lia.
  - rewrite Z.mod_small by lia.
    destruct (Z.ltb_spec i (2 ^ 63)); lia.
Qed.

Lemma uint64_of_int64_range (i : Z) : 0 <= uint64_of_int64 i < 256 ^ Z.of_nat 8.
Proof.
  unfold uint64_of_int64.
  change (256 ^ Z.of_nat 8) with (2 ^ 64).
  apply Z.mod_pos_bound. lia.
Qed.

(** ** De-obfuscation *)

Lemma xor_key_is_byte (i : Z) : is_byte (xor_key i).
Proof. unfold is_byte, xor_key. apply Z.mod_pos_bound. lia. Qed.

Lemma xor_key_spec (i : Z) : 0 <= i -> xor_key i = ((i mod 255) + 105) mod 256.
Proof. intros Hi. unfold xor_key. rewrite Z.rem_mod_nonneg by lia. reflexivity. Qed.

Lemma xor_from_involutive (data : list Z) (i : Z) : xor_from i (xor_from i data) = data.
Proof.
  revert i. induction data as [|b rest IH]; intros i; simpl.
  - reflexivity.
  - rewrite IH. f_equal.
    rewrite Z.lxor_assoc, Z.lxor_nilpotent. apply Z.lxor_0_r.
Qed.

Lemma length_xor_from (data : list Z) (i : Z) : length (xor_from i data) = length data.
Proof. revert i. induction data as [|b rest IH]; intros i; simpl; [reflexivity | now rewrite IH]. Qed.

Lemma lxor_is_byte (a b : Z) : is_byte a -> is_byte b -> is_byte (Z.lxor a b).
Proof.
  unfold is_byte. intros Ha Hb.
  split.
  - apply Z.lxor_nonneg. lia.
  - destruct (Z.eq_dec (Z.lxor a b) 0) as [-> | Hne]; [lia |].
    assert (Hnn : 0 <= Z.lxor a b) by (apply Z.lxor_nonneg; lia).
    apply Z.log2_lt_pow2 with (b := 8); [lia |].
    pose proof (Z.log2_lxor a b ltac:(lia) ltac:(lia)) as Hl.
    assert (Z.log2 a < 8).
    { destruct (Z.eq_dec a 0) as [-> | ?]; [simpl; lia |].
      apply Z.log2_lt_pow2; lia. }
    assert (Z.log2 b < 8).
    { destruct (Z.eq_dec b 0) as [-> | ?]; [simpl; lia |].
      apply Z.log2_lt_pow2; lia. }
    lia.
Qed.

Lemma xor_from_bytes (data : list Z) (i : Z) :
  Forall is_byte data -> Forall is_byte (xor_from i data).
Proof.
  intros H. revert i. induction H as [|b rest Hb _ IH]; intros i; simpl; constructor.
  - apply lxor_is_byte; [assumption | apply xor_key_is_byte].
  - apply IH.
Qed.

(** ** Reading what was written *)

Lemma readFull_app (bs rest : list Z) :
  readFull (length bs) (bs ++ rest) = (None, bs, rest).
Proof.
  unfold readFull.
  rewrite length_app.
  destruct (Nat.leb_spec (length bs) (length bs + length rest)); [| lia].
  now rewrite take_app_length, drop_app_length.
Qed.

Lemma binary_Read_uint32_app (cur v : Z) (rest : list Z) :
  0 <= v < 2 ^ 32 ->
  binary_Read_uint32 cur (le_bytes 4 v ++ rest) = (None, v, rest).
Proof.
  intros Hv. unfold binary_Read_uint32.
  pose proof (readFull_app (le_bytes 4 v) rest) as H.
  rewrite length_le_bytes in H. rewrite H.
  now rewrite le_uint_le_bytes.
Qed.

Lemma binary_Read_int64_app (cur i : Z) (rest : list Z) :
  - 2 ^ 63 <= i < 2 ^ 63 ->
  binary_Read_int64 cur (le_bytes 8 (uint64_of_int64 i) ++ rest) = (None, i, rest).
Proof.
  intros Hi. unfold binary_Read_int64.
  pose proof (readFull_app (le_bytes 8 (uint64_of_int64 i)) rest) as H.
  rewrite length_le_bytes in H. rewrite H.
  rewrite le_uint_le_bytes by apply uint64_of_int64_range.
  now rewrite int64_roundtrip.
Qed.

Lemma binary_Read_bytes_app (cur bs rest : list Z) :
  length cur = length bs ->
  binary_Read_bytes cur (bs ++ rest) = (None, bs, rest).
Proof.
  intros Hl. unfold binary_Read_bytes. rewrite Hl.
  now rewrite readFull_app.
Qed.

Lemma length_make_bytes (n : Z) : length (make_bytes n) = Z.to_nat n.
Proof. unfold make_bytes. apply length_replicate. Qed.

Lemma read_File_encode (f : File) (rest : list Z) :
  wf_File f -> read_File (encode_File f ++ rest) = (f, rest).
Proof.
  destruct f as [pl p hl h lm].
  unfold wf_File. cbn [PathLen Path HashLen Hash LastModified].
  intros (Hpl & Hpb & Hhl & Hhb & Hlm).
  unfold read_File, encode_File, zero_File.
  cbn [PathLen Path HashLen Hash LastModified].
  rewrite <- !app_assoc.
  rewrite binary_Read_uint32_app by lia.
  rewrite binary_Read_bytes_app
    by (rewrite length_make_bytes, length_bytes_of_string; lia).
  rewrite binary_Read_uint32_app by lia.
  rewrite binary_Read_bytes_app
    by (rewrite length_make_bytes, length_bytes_of_string; lia).
  rewrite binary_Read_int64_app by lia.
  now rewrite !string_of_bytes_of_string.
Qed.

Lemma read_Files_encode (files : list File) (rest : list Z) :
  Forall wf_File files ->
  read_Files (length files) (concat (map encode_File files) ++ rest) = (files, rest).
Proof.
  induction 1 as [|f files Hf _ IH]; cbn [length map concat read_Files].
  - reflexivity.
  - rewrite <- app_assoc, read_File_encode by assumption.
    now rewrite IH.
Qed.

Lemma decode_encode (v : VersionFile) :
  wf_VersionFile v -> decodeVersionFile (encodeVersionFile v) = v.
Proof.
  destruct v as [pad n files].
  unfold wf_VersionFile. cbn [Padding NumberOfFiles Files].
  intros (Hpad & Hn & Hb & Hfiles).
  unfold decodeVersionFile, encodeVersionFile, deobfuscate, encode_plain.
  cbn [Padding NumberOfFiles Files].
  rewrite xor_from_involutive.
  rewrite binary_Read_bytes_app by (rewrite length_replicate; lia).
  rewrite binary_Read_uint32_app by lia.
  pose proof (read_Files_encode files [] Hfiles) as H.
  rewrite app_nil_r in H.
  rewrite Hn, Nat2Z.id, H. reflexivity.
Qed.

(** ** The manifest loader *)

Lemma read_File_nil : read_File [] = (zero_File, []).
Proof. reflexivity. Qed.

Lemma read_Files_nil (n : nat) : read_Files n [] = (replicate n zero_File, []).
Proof.
  induction n as [|n IH]; cbn [read_Files replicate].
  - reflexivity.
  - now rewrite read_File_nil, IH.
Qed.

Lemma length_read_Files (n : nat) (buffer : list Z) :
  length (fst (read_Files n buffer)) = n.
Proof.
  revert buffer. induction n as [|n IH]; intros buffer; cbn [read_Files].
  - reflexivity.
  - destruct (read_File buffer) as [file buffer1].
    specialize (IH buffer1).
    destruct (read_Files n buffer1) as [files buffer2].
    simpl in *. now rewrite IH.
Qed.

Lemma length_decodeVersionFile (data : list Z) :
  length (Files (decodeVersionFile data)) = Z.to_nat (NumberOfFiles (decodeVersionFile data)).
Proof.
  unfold decodeVersionFile.
  destruct (binary_Read_bytes _ _) as [[e1 padding] buffer1].
  destruct (binary_Read_uint32 0 buffer1) as [[e2 n] buffer2].
  pose proof (length_read_Files (Z.to_nat n) buffer2) as H.
  destruct (read_Files (Z.to_nat n) buffer2) as [files buffer3].
  exact H.
Qed.

Lemma readFull_short (n : nat) (buf : list Z) :
  (length buf <= n)%nat -> snd (readFull n buf) = [].
Proof.
  intros Hn. unfold readFull.
  destruct (Nat.leb_spec n (length buf)); cbn [snd]; [| reflexivity].
  apply drop_ge. lia.
Qed.

(** A stream with at most the header and the count has only zero-valued
    entries, as many as the count it declares. *)
Lemma decodeVersionFile_header_only (data : list Z) :
  (length data <= 20)%nat ->
  Files (decodeVersionFile data) =
  replicate (Z.to_nat (NumberOfFiles (decodeVersionFile data))) zero_File.
Proof.
  intros Hlen. unfold decodeVersionFile, deobfuscate.
  pose proof (length_xor_from data 0) as Hx.
  set (buffer := xor_from 0 data) in *.
  assert (Hrest : forall e p b e' n b',
             binary_Read_bytes (replicate 16 0) buffer = (e, p, b) ->
             binary_Read_uint32 0 b = (e', n, b') -> b' = []).
  { intros e p b e' n b'. unfold binary_Read_bytes, binary_Read_uint32, readFull.
    rewrite length_replicate.
    destruct (Nat.leb_spec 16 (length buffer)) as [H16 | H16].
    - intros [= <- <- <-].
      destruct (Nat.leb_spec 4 (length (drop 16 buffer))) as [H4 | H4].
      + intros [= <- <- <-]. apply drop_ge. rewrite length_drop. lia.
      + now intros [= <- <- <-].
    - intros [= <- <- <-]. cbn. now intros [= <- <- <-]. }
  destruct (binary_Read_bytes _ buffer) as [[e1 padding] buffer1] eqn:H1.
  destruct (binary_Read_uint32 0 buffer1) as [[e2 n] buffer2] eqn:H2.
  rewrite (Hrest _ _ _ _ _ _ eq_refl H2).
  now rewrite read_Files_nil.
Qed.

(** C5. The XOR de-obfuscation is an involution on byte streams, its
    key at position [i] is [((i mod 255) + K) mod 256] with [K = 105], and
    decoding the stream that the wire format prescribes for a manifest
    gives that manifest back: the declared count, and entries equal to the
    source data. *)
Theorem manifest_roundtrip :
  (forall (data : list Z), deobfuscate (deobfuscate data) = data) /\
  (forall (data : list Z), Forall is_byte data -> Forall is_byte (deobfuscate data)) /\
  (forall i, 0 <= i -> xor_key i = ((i mod 255) + 105) mod 256) /\
  (forall v, wf_VersionFile v ->
     decodeVersionFile (encodeVersionFile v) = v /\
     NumberOfFiles (decodeVersionFile (encodeVersionFile v)) = Z.of_nat (length (Files v)) /\
     Files (decodeVersionFile (encodeVersionFile v)) = Files v).
Proof.
  split; [| split; [| split]].
  - intros data. apply xor_from_involutive.
  - intros data. apply xor_from_bytes.
  - apply xor_key_spec.
  - intros v Hv. rewrite decode_encode by assumption.
    destruct Hv as (_ & Hn & _). auto.
Qed.

Lemma wf_sample_manifest : wf_VersionFile sample_manifest.
Proof.
  unfold wf_VersionFile, sample_manifest; cbn.
  repeat split; try lia.
  constructor; [| constructor].
  unfold wf_File; cbn. lia.
Qed.

Lemma manifest_roundtrip_witness :
  wf_VersionFile sample_manifest /\
  decodeVersionFile (encodeVersionFile sample_manifest) = sample_manifest.
Proof.
  split.
  - exact wf_sample_manifest.
  - exact (proj1 (proj2 (proj2 (proj2 manifest_roundtrip)) sample_manifest wf_sample_manifest)).
Defined.

(** C1, as the code has it.  [fetchVersionFile] returns an error exactly
    when the fetch of the manifest failed.  When the body arrived it always
    returns a manifest and no error, with as many entries as the count
    that was read; where the buffer ran out the fields keep their zero
    values (a stream of at most header and count gives only zero-valued
    entries), and [main] ends with "Could not fetch the version file."
    only if the fetch failed. *)
Theorem fetchVersionFile_never_fails_decoding (E : Env) (cdn : Z) (rest : list Z) :
  match getFile E (cdn_url cdn "version.bin") with
  | (data, None) =>
      fetchVersionFile E (cdn :: rest) = Some (Some (decodeVersionFile data), None) /\
      length (Files (decodeVersionFile data)) = Z.to_nat (NumberOfFiles (decodeVersionFile data)) /\
      ((length data <= 20)%nat ->
       Files (decodeVersionFile data) =
       replicate (Z.to_nat (NumberOfFiles (decodeVersionFile data))) zero_File)
  | (_, Some e) => fetchVersionFile E (cdn :: rest) = Some (None, Some e)
  end /\
  (forall fuel sched w,
     fst (main E fuel sched w) = FatalVersionFile ->
     exists c data e, getFile E (cdn_url c "version.bin") = (data, Some e)).
Proof.
  split.
  - unfold fetchVersionFile.
    destruct (getFile E (cdn_url cdn "version.bin")) as [data [e|]].
    + reflexivity.
    + split; [reflexivity |].
      split; [apply length_decodeVersionFile | apply decodeVersionFile_header_only].
  - intros fuel sched w. unfold main.
    destruct (checkCDNStatus E) as [onlineCDNs onlineServers].
    destruct (onlineServers =? 0); [discriminate |].
    unfold fetchVersionFile.
    destruct onlineCDNs as [|c cs]; [discriminate |].
    destruct (getFile E (cdn_url c "version.bin")) as [data [e|]] eqn:Hget.
    + intros _. now exists c, data, e.
    + unfold bind.
      destruct (verifyFiles E _ w) as [toDownload w1].
      destruct (downloadFiles E fuel _ sched toDownload w1) as [[jobs|] w2]; discriminate.
Qed.

Lemma fetchVersionFile_never_fails_decoding_witness :
  (length truncated_manifest <= 20)%nat /\
  Files (decodeVersionFile truncated_manifest) = [zero_File; zero_File].
Proof.
  split.
  - vm_compute. lia.
  - pose proof (proj1 (fetchVersionFile_never_fails_decoding truncated_env 0 [])) as H.
    change (getFile _ _) with (truncated_manifest, @None error) in H.
    destruct H as (_ & _ & H).
    rewrite H by (vm_compute; lia).
    reflexivity.
Defined.

(** C1, as it is stated, fails: a manifest that declares two entries and
    ends after the count is decoded without error, and the run goes on to
    verify and fetch its two zero-valued entries. *)
Lemma truncated_manifest_accepted :
  NumberOfFiles (decodeVersionFile truncated_manifest) = 2 /\
  length truncated_manifest = 20%nat /\
  fetchVersionFile truncated_env [0] =
    Some (Some (mkVersionFile (replicate 16 0) 2 [zero_File; zero_File]), None) /\
  fst (main truncated_env 2 first_worker empty_world) =
    Ran [zero_File; zero_File] [JobAbandoned; JobAbandoned].
Proof. vm_compute. repeat split; reflexivity. Qed.

(** ** The inventory verifier *)

Section Verdict.
Variable E : Env.

Lemma classify_verdict_of (file : File) (w : world) :
  classify E file w = verdict_of E file (fs w !! local_path E file).
Proof.
  unfold classify, verdict_of, verifyFile, digest, local_path. step_ops.
  destruct (fs w !! install_join E (Path file)) as [f|] eqn:Hf; cbn; [| reflexivity].
  destruct (open_fails E (install_join E (Path file))); cbn; [reflexivity |].
  rewrite Hf; cbn.
  destruct (stat_fails E (install_join E (Path file))); cbn.
  - rewrite Hf; cbn.
    destruct (read_fails E (install_join E (Path file))); cbn; [reflexivity |].
    destruct (String.eqb _ _); cbn; [| reflexivity].
    destruct (chtimes_fails E (Path file)); cbn; [reflexivity |].
    destruct (fs w !! Path file); reflexivity.
  - destruct (f_mode f =? mode_0444); cbn; [reflexivity |].
    rewrite Hf; cbn.
    destruct (read_fails E (install_join E (Path file))); cbn; [reflexivity |].
    destruct (String.eqb _ _); cbn; [| reflexivity].
    destruct (chtimes_fails E (Path file)); cbn; [reflexivity |].
    destruct (fs w !! Path file); reflexivity.
Qed.

End Verdict.

Section VerifierEffects.
Variable E : Env.

Lemma verdict_of_body (file : File) (o1 o2 : option fnode) :
  file_body <$> o1 = file_body <$> o2 -> verdict_of E file o1 = verdict_of E file o2.
Proof.
  destruct o1 as [[d1 m1 t1]|], o2 as [[d2 m2 t2]|]; cbn; try discriminate; [| reflexivity].
  unfold file_body; cbn. now intros [= -> ->].
Qed.

Lemma classify_same_files (file : File) (w1 w2 : world) :
  same_files (fs w1) (fs w2) -> classify E file w1 = classify E file w2.
Proof.
  intros H. rewrite !classify_verdict_of. apply verdict_of_body, H.
Qed.

Lemma same_files_refl (m : gmap string fnode) : same_files m m.
Proof. now intros q. Qed.

Lemma same_files_trans (m1 m2 m3 : gmap string fnode) :
  same_files m1 m2 -> same_files m2 m3 -> same_files m1 m3.
Proof. intros H1 H2 q. now rewrite H1. Qed.

Lemma same_files_touch (m : gmap string fnode) (p : string) (f : fnode) (t : Z) :
  m !! p = Some f -> same_files m (<[p := mkfile (f_data f) (f_mode f) t]> m).
Proof.
  intros Hf q. destruct (decide (p = q)) as [<- | Hne].
  - now rewrite lookup_insert_eq, Hf.
  - now rewrite lookup_insert_ne.
Qed.

Ltac verify_done :=
  repeat split; try apply same_files_refl; try reflexivity; try discriminate;
  try congruence;
  try (eexists; split; [ trace_eq | repeat constructor; try discriminate ]).

(** What one iteration does to the world. *)
Lemma verifyFile_effect (file : File) (w : world) :
  let w' := snd (verifyFile E file w) in
  same_files (fs w) (fs w') /\
  (forall q, q <> Path file -> fs w' !! q = fs w !! q) /\
  (classify E file w <> OK -> fs w' = fs w) /\
  exists t, trace w' = trace w ++ t /\
            Forall (verify_event E file (classify E file w)) t.
Proof.
  unfold classify, verifyFile, verify_event, local_path. step_ops.
  destruct (fs w !! install_join E (Path file)) as [f|] eqn:Hf; cbn; [| verify_done].
  destruct (open_fails E (install_join E (Path file))); cbn; [verify_done |].
  rewrite Hf; cbn.
  destruct (stat_fails E (install_join E (Path file))); cbn;
    [| destruct (f_mode f =? mode_0444); cbn; [verify_done |] ];
    rewrite Hf; cbn;
    (destruct (read_fails E (install_join E (Path file))); cbn; [verify_done |]);
    (destruct (String.eqb _ _); cbn; [| verify_done]);
    (destruct (chtimes_fails E (Path file)); cbn; [verify_done |]);
    (destruct (fs w !! Path file) as [g|] eqn:Hg; cbn; [| verify_done]).
  all: repeat split; try congruence;
    [ now apply same_files_touch
    | intros q Hq; now rewrite lookup_insert_ne
    | eexists; split; [rewrite <- !app_assoc; reflexivity | repeat constructor; discriminate] ].
Qed.

(** The loop: the queue is the accumulator followed by the entries whose
    verdict, taken in the world the loop starts in, is "Need to
    download.", in manifest order. *)
Lemma verifyFiles_from_effect (files acc : list File) (w : world) :
  let r := verifyFiles_from E acc files w in
  fst r = acc ++ filter (fun f => classify E f w = NeedDownload) files /\
  same_files (fs w) (fs (snd r)) /\
  (forall q, (forall e, e ∈ files -> Path e = q -> classify E e w <> OK) ->
             fs (snd r) !! q = fs w !! q) /\
  exists t, trace (snd r) = trace w ++ t /\
            Forall (fun ev => exists e, e ∈ files /\ verify_event E e (classify E e w) ev) t.
Proof.
  revert acc w. induction files as [|file rest IH]; intros acc w; cbn [verifyFiles_from].
  - cbn. rewrite app_nil_r. repeat split; try apply same_files_refl.
    exists []. now rewrite app_nil_r.
  - unfold bind.
    pose proof (verifyFile_effect file w) as (Hsame & Hother & Hnot & t1 & Ht1 & HQ1).
    pose proof (eq_refl : classify E file w = fst (verifyFile E file w)) as Hv.
    destruct (verifyFile E file w) as [v w1]. cbn [fst snd] in *.
    assert (Hcl : forall e, classify E e w1 = classify E e w).
    { intros e. symmetry. now apply classify_same_files. }
    set (acc' := match v with NeedDownload => acc ++ [file] | _ => acc end).
    assert (Hloop : (match v with
                     | NeedDownload => verifyFiles_from E (acc ++ [file]) rest
                     | _ => verifyFiles_from E acc rest
                     end) w1 = verifyFiles_from E acc' rest w1)
      by (subst acc'; now destruct v).
    rewrite Hloop. clear Hloop.
    destruct (IH acc' w1) as (Hq & Hsame' & Hkeep & t2 & Ht2 & HQ2).
    repeat split.
    + rewrite Hq. rewrite filter_cons.
      rewrite (list_filter_iff (fun f => classify E f w1 = NeedDownload)
                 (fun f => classify E f w = NeedDownload))
        by (intros f; now rewrite Hcl).
      subst acc'. destruct (decide (classify E file w = NeedDownload)) as [Hd | Hd].
      * rewrite <- Hv, Hd. now rewrite <- app_assoc.
      * destruct v; [congruence | reflexivity | reflexivity].
    + eapply same_files_trans; eauto.
    + intros q Hall.
      rewrite Hkeep.
      * destruct (decide (q = Path file)) as [-> | Hne]; [| now apply Hother].
        rewrite Hnot; [reflexivity |].
        apply Hall; [left | reflexivity].
      * intros e He Hpe. rewrite Hcl. apply Hall; [now right | assumption].
    + exists (t1 ++ t2). rewrite Ht2, Ht1, app_assoc. split; [reflexivity |].
      apply Forall_app. split.
      * eapply Forall_impl; [exact HQ1 |]. intros ev Hev. exists file. split; [left | assumption].
      * eapply Forall_impl; [exact HQ2 |]. intros ev (e & He & Hev).
        exists e. split; [now right |]. now rewrite <- Hcl.
Qed.

Lemma verifyFiles_queue (files : list File) (w : world) :
  fst (verifyFiles E files w) = filter (fun f => classify E f w = NeedDownload) files.
Proof. unfold verifyFiles. now destruct (verifyFiles_from_effect files [] w) as (-> & _). Qed.

End VerifierEffects.


Section VerifierClaims.
Variable E : Env.

Lemma length_hex_EncodeToString (bs : list Z) :
  String.length (hex_EncodeToString bs) = (2 * length bs)%nat.
Proof. induction bs as [|b bs IH]; cbn; [reflexivity | rewrite IH; lia]. Qed.

Lemma verdict_of_OK (file : File) (o : option fnode) :
  verdict_of E file o = OK <->
  exists f, o = Some f /\ open_fails E (local_path E file) = false /\
            read_fails E (local_path E file) = false /\
            ~ (stat_fails E (local_path E file) = false /\ f_mode f = mode_0444) /\
            digest E (f_data f) = Hash file.
Proof.
  unfold verdict_of. destruct o as [f|].
  2:{ split; [discriminate | intros (f & [=] & _)]. }
  destruct (open_fails E (local_path E file)), (stat_fails E (local_path E file)),
    (Z.eqb_spec (f_mode f) mode_0444), (read_fails E (local_path E file)),
    (String.eqb_spec (digest E (f_data f)) (Hash file)); cbn;
    (split; [try discriminate; intros _; exists f; repeat split; try assumption;
             intros [? ?]; congruence
            | intros (f' & [= <-] & ? & ? & Hn & ?); try congruence; try reflexivity;
              exfalso; apply Hn; split; congruence]).
Qed.

Lemma verdict_of_Custom (file : File) (o : option fnode) :
  verdict_of E file o = Custom <->
  exists f, o = Some f /\ open_fails E (local_path E file) = false /\
            stat_fails E (local_path E file) = false /\ f_mode f = mode_0444.
Proof.
  unfold verdict_of. destruct o as [f|].
  2:{ split; [discriminate | intros (f & [=] & _)]. }
  destruct (open_fails E (local_path E file)), (stat_fails E (local_path E file)),
    (Z.eqb_spec (f_mode f) mode_0444), (read_fails E (local_path E file)),
    (String.eqb_spec (digest E (f_data f)) (Hash file)); cbn;
    (split; [try discriminate; intros _; exists f; repeat split; assumption
            | intros (f' & [= <-] & ? & ? & ?); try congruence; try reflexivity]).
Qed.

Lemma verdict_of_NeedDownload (file : File) (o : option fnode) :
  verdict_of E file o = NeedDownload <->
  o = None \/ open_fails E (local_path E file) = true \/
  exists f, o = Some f /\ open_fails E (local_path E file) = false /\
            ~ (stat_fails E (local_path E file) = false /\ f_mode f = mode_0444) /\
            (read_fails E (local_path E file) = true \/ digest E (f_data f) <> Hash file).
Proof.
  pose proof (verdict_of_OK file o) as HOK.
  pose proof (verdict_of_Custom file o) as HC.
  split.
  - intros Hv.
    destruct o as [f|]; [| now left]. right.
    destruct (open_fails E (local_path E file)) eqn:Hop; [now left | right].
    exists f. split; [reflexivity |]. split; [reflexivity |].
    split.
    + intros [Hs Hm]. assert (verdict_of E file (Some f) = Custom) by (apply HC; eauto).
      congruence.
    + destruct (read_fails E (local_path E file)) eqn:Hr; [now left | right].
      intros Hd.
      assert (verdict_of E file (Some f) = OK); [| congruence].
      apply HOK. exists f. repeat split; try assumption.
      intros [Hs Hm].
      assert (verdict_of E file (Some f) = Custom) by (apply HC; eauto).
      congruence.
  - intros Hcases.
    destruct (verdict_of E file o) eqn:Hv; [reflexivity | exfalso | exfalso].
    + destruct (proj1 HC eq_refl) as (f & -> & Hop & Hs & Hm).
      destruct Hcases as [? | [? | (f' & [= <-] & _ & Hn & _)]]; try congruence.
      now apply Hn.
    + destruct (proj1 HOK eq_refl) as (f & -> & Hop & Hr & Hn & Hd).
      destruct Hcases as [? | [? | (f' & [= <-] & _ & _ & [? | ?])]]; congruence.
Qed.

(** An entry whose file was opened and not skipped is read for hashing. *)
Lemma verifyFile_reads (file : File) (w : world) (f : fnode) :
  fs w !! local_path E file = Some f ->
  open_fails E (local_path E file) = false ->
  classify E file w <> Custom ->
  exists t, trace (snd (verifyFile E file w)) = trace w ++ t /\ EvRead (local_path E file) ∈ t.
Proof.
  unfold local_path. intros Hf Hop.
  unfold classify, verifyFile. step_ops.
  rewrite Hf; cbn. rewrite Hop; cbn. rewrite Hf; cbn.
  destruct (stat_fails E (install_join E (Path file))); cbn;
    [| destruct (f_mode f =? mode_0444); cbn; [congruence |] ];
    intros _; rewrite Hf; cbn;
    (destruct (read_fails E (install_join E (Path file))); cbn;
     [| destruct (String.eqb _ _); cbn;
        [ destruct (chtimes_fails E (Path file)); cbn;
          [| destruct (fs w !! Path file); cbn] |] ]);
    (eexists; split; [rewrite <- !app_assoc; reflexivity |
       repeat (first [ apply list_elem_of_here | apply list_elem_of_further ])]).
Qed.

(** C3. An entry the verifier finds up to date ("OK.") is not queued, and
    the hex-encoded digest of the whole content of its local file is, as a
    string, the hash the manifest records (64 characters for a 256-bit
    digest); a file that can be read, is not skipped as custom and has
    another digest is classified "Need to download." and queued. *)
Theorem uptodate_digest_matches (files : list File) (w : world) (file : File) :
  file ∈ files ->
  (classify E file w = OK ->
     (file ∉ fst (verifyFiles E files w)) /\
     exists f, fs w !! local_path E file = Some f /\
               hex_EncodeToString (blake2b_256 E (f_data f)) = Hash file /\
               (length (blake2b_256 E (f_data f)) = 32%nat ->
                String.length (Hash file) = 64%nat)) /\
  (forall f, fs w !! local_path E file = Some f ->
             open_fails E (local_path E file) = false ->
             read_fails E (local_path E file) = false ->
             ~ (stat_fails E (local_path E file) = false /\ f_mode f = mode_0444) ->
             hex_EncodeToString (blake2b_256 E (f_data f)) <> Hash file ->
             classify E file w = NeedDownload /\ file ∈ fst (verifyFiles E files w)).
Proof.
  intros Hin. rewrite verifyFiles_queue. split.
  - intros HOK. split.
    + rewrite list_elem_of_filter. intros [Hn _]. congruence.
    + rewrite classify_verdict_of in HOK.
      apply verdict_of_OK in HOK as (f & Hf & _ & _ & _ & Hd).
      exists f. repeat split; try assumption.
      intros H32. rewrite <- Hd. unfold digest.
      rewrite length_hex_EncodeToString, H32. reflexivity.
  - intros f Hf Hop Hr Hn Hd.
    assert (Hv : classify E file w = NeedDownload).
    { rewrite classify_verdict_of. apply verdict_of_NeedDownload.
      right; right. exists f. repeat split; try assumption. now right. }
    split; [assumption |].
    rewrite list_elem_of_filter. now split.
Qed.

(** C10. The verifier cannot fail: for every list of entries and every
    world it returns a queue, a sub-list of the entries in their order.
    An entry whose file cannot be opened, for whatever reason, is queued,
    and so is an entry whose file fails while it is read for hashing. *)
Theorem verifyFiles_total (files : list File) (w : world) :
  exists queue w',
    verifyFiles E files w = (queue, w') /\
    queue `sublist_of` files /\
    forall file, file ∈ files ->
      ((fs w !! local_path E file = None \/ open_fails E (local_path E file) = true) ->
       classify E file w = NeedDownload /\ file ∈ queue) /\
      (forall f, fs w !! local_path E file = Some f ->
                 open_fails E (local_path E file) = false ->
                 ~ (stat_fails E (local_path E file) = false /\ f_mode f = mode_0444) ->
                 read_fails E (local_path E file) = true ->
                 classify E file w = NeedDownload /\ file ∈ queue).
Proof.
  pose proof (verifyFiles_queue E files w) as Hq.
  destruct (verifyFiles E files w) as [queue w'] eqn:Hrun. cbn [fst] in Hq.
  exists queue, w'. split; [reflexivity |]. subst queue.
  split; [apply sublist_filter |].
  intros file Hin. split.
  - intros Hcase.
    assert (Hv : classify E file w = NeedDownload).
    { rewrite classify_verdict_of. apply verdict_of_NeedDownload.
      destruct Hcase; [now left | right; now left]. }
    split; [assumption |]. rewrite list_elem_of_filter. now split.
  - intros f Hf Hop Hn Hr.
    assert (Hv : classify E file w = NeedDownload).
    { rewrite classify_verdict_of. apply verdict_of_NeedDownload.
      right; right. exists f. repeat split; try assumption. now left. }
    split; [assumption |]. rewrite list_elem_of_filter. now split.
Qed.

End VerifierClaims.

(** ** The fetcher *)

Section FetcherEffects.
Variable E : Env.

Lemma fetch_partial_footprint (file : File) (url : string) (force : bool) (w : world) :
  let w' := snd (fetch_partial E file url force w) in
  (exists t, trace w' = trace w ++ t /\ Forall (transfer_event file) t) /\
  (forall q, q <> Path file +:+ ".tmp" -> fs w' !! q = fs w !! q).
Proof.
  unfold fetch_partial. step_ops. run_ops.
  all: split; [trace_done | intros q Hq; cbn; now rewrite ?lookup_insert_ne by congruence].
Qed.

Lemma length_string_app (s t : string) :
  String.length (s +:+ t) = (String.length s + String.length t)%nat.
Proof. induction s as [|c s IH]; simpl; [reflexivity | now f_equal]. Qed.

Lemma tmp_ne (p : string) : p <> p +:+ ".tmp".
Proof.
  intros H. apply (f_equal String.length) in H.
  rewrite length_string_app in H.
  change (String.length ".tmp") with 4%nat in H.
  revert H. generalize (String.length p). intros n H. lia.
Qed.


Lemma install_footprint (file : File) (w : world) :
  let w' := snd (install E file w) in
  (exists t, trace w' = trace w ++ t /\ Forall (install_event file) t) /\
  (forall q, q <> Path file +:+ ".tmp" -> q <> Path file -> fs w' !! q = fs w !! q).
Proof.
  pose proof (tmp_ne (Path file)) as Hne.
  unfold install. step_ops. run_ops.
  all: split;
    [ trace_done
    | intros q Hq1 Hq2; cbn;
      now rewrite ?lookup_insert_ne, ?lookup_delete_ne, ?lookup_insert_ne by congruence ].
Qed.


Lemma attempts_app (t1 t2 : list event) : attempts (t1 ++ t2) = attempts t1 ++ attempts t2.
Proof. unfold attempts. apply omap_app. Qed.

Lemma requests_app (t1 t2 : list event) : requests (t1 ++ t2) = requests t1 ++ requests t2.
Proof. unfold requests. apply omap_app. Qed.

Lemma attempts_none (Q : event -> Prop) (t : list event) :
  (forall p url force, ~ Q (EvDownloadFile p url force)) -> Forall Q t -> attempts t = [].
Proof.
  intros HQ. induction 1 as [|e t He _ IH]; [reflexivity |].
  destruct e; cbn; try exact IH. now apply HQ in He.
Qed.

Lemma requests_none (Q : event -> Prop) (t : list event) :
  (forall r, ~ Q (EvRequest r)) -> Forall Q t -> requests t = [].
Proof.
  intros HQ. induction 1 as [|e t He _ IH]; [reflexivity |].
  destruct e; cbn; try exact IH. now apply HQ in He.
Qed.

(** [downloadFile] is its two parts one after the other. *)
Lemma downloadFile_unfold (file : File) (url : string) (force : bool) (w : world) :
  downloadFile E file url force w =
  match fetch_partial E file url force
          (mkWorld (fs w) (trace w ++ [EvDownloadFile (Path file) url force])) with
  | (Some ended, w1) => (ended, w1)
  | (None, w1) => install E file w1
  end.
Proof.
  unfold downloadFile, bind, emit, ret.
  now destruct (fetch_partial _ _ _ _ _) as [[ended|] w1].
Qed.

Lemma downloadFile_footprint (file : File) (url : string) (force : bool) (w : world) :
  let w' := snd (downloadFile E file url force w) in
  (exists t, trace w' = trace w ++ EvDownloadFile (Path file) url force :: t /\
             Forall (fun e => transfer_event file e \/ install_event file e) t) /\
  (forall q, q <> Path file +:+ ".tmp" -> q <> Path file -> fs w' !! q = fs w !! q).
Proof.
  rewrite downloadFile_unfold.
  set (w0 := mkWorld (fs w) (trace w ++ [EvDownloadFile (Path file) url force])).
  destruct (fetch_partial_footprint file url force w0) as ((t1 & Ht1 & HQ1) & Hk1).
  destruct (fetch_partial E file url force w0) as [[ended|] w1]; cbn [snd] in *.
  - split.
    + exists t1. rewrite Ht1. subst w0; cbn. rewrite <- app_assoc. split; [reflexivity |].
      eapply Forall_impl; [exact HQ1 | auto].
    + intros q Hq1 Hq2. now rewrite Hk1.
  - destruct (install_footprint file w1) as ((t2 & Ht2 & HQ2) & Hk2).
    split.
    + exists (t1 ++ t2). rewrite Ht2, Ht1. subst w0; cbn. rewrite <- !app_assoc.
      split; [reflexivity |].
      apply Forall_app. split; (eapply Forall_impl; [eassumption | auto]).
    + intros q Hq1 Hq2. rewrite Hk2 by assumption. now rewrite Hk1.
Qed.

Lemma downloadFile_attempts (file : File) (url : string) (force : bool) (w : world) :
  exists t, trace (snd (downloadFile E file url force w)) = trace w ++ t /\
            attempts t = [force] /\
            Forall (job_event file) t.
Proof.
  destruct (downloadFile_footprint file url force w) as ((t & Ht & HQ) & _).
  exists (EvDownloadFile (Path file) url force :: t). split; [assumption |]. split.
  - cbn. f_equal.
    apply (attempts_none (fun e => transfer_event file e \/ install_event file e)); [| assumption].
    intros p u f [H | H]; exact H.
  - constructor.
    + right; right. reflexivity.
    + eapply Forall_impl; [exact HQ |]. intros e [H | H]; [now left | right; now left].
Qed.

End FetcherEffects.

Section Transfer.
Variable E : Env.

Lemma install_quiet (file : File) (w : world) :
  exists t, trace (snd (install E file w)) = trace w ++ t /\
            requests t = [] /\
            (EvCreate (Path file +:+ ".tmp") ∉ t) /\
            (EvOpenAppend (Path file +:+ ".tmp") ∉ t).
Proof.
  destruct (install_footprint E file w) as ((t & Ht & HQ) & _).
  exists t. split; [assumption |]. split; [| split].
  - apply (requests_none (install_event file)); [| assumption]. intros r H; exact H.
  - intros Hin. rewrite Forall_forall in HQ. apply HQ in Hin. cbn in Hin.
    now apply (tmp_ne (Path file)).
  - intros Hin. rewrite Forall_forall in HQ. apply HQ in Hin. exact Hin.
Qed.

Lemma fetch_partial_resume (file : File) (url : string) (w : world) (f : fnode) :
  new_request_ok E url = true ->
  fs w !! (Path file +:+ ".tmp") = Some f ->
  stat_fails E (Path file +:+ ".tmp") = false ->
  append_fails E (Path file +:+ ".tmp") = false ->
  let x := mkRequest url (Some (Z.of_nat (length (f_data f)))) in
  let w' := snd (fetch_partial E file url false w) in
  (exists t, trace w' = trace w ++ t /\ requests t = [x] /\
             EvOpenAppend (Path file +:+ ".tmp") ∈ t /\
             (EvCreate (Path file +:+ ".tmp") ∉ t)) /\
  (forall body c, http_do E x = Response body c ->
     fs w' !! (Path file +:+ ".tmp") = Some (mkfile (f_data f ++ body) (f_mode f) (now E))).
Proof.
  intros Hurl Hf Hstat Happ.
  unfold fetch_partial. step_ops.
  rewrite Hf, Hstat, Hurl; cbn. rewrite Happ; cbn. rewrite Hf; cbn.
  destruct (http_do E _) as [|body c] eqn:Hdo; cbn.
  - split; [| intros ? ? [=]].
    eexists. split; [trace_eq |]. trace_facts.
  - rewrite Hf; cbn.
    assert (Hfs : forall b c', Response body c = Response b c' ->
              <[Path file +:+ ".tmp" := mkfile (f_data f ++ body) (f_mode f) (now E)]> (fs w)
                !! (Path file +:+ ".tmp")
              = Some (mkfile (f_data f ++ b) (f_mode f) (now E))).
    { intros b c' [= <- <-]. apply lookup_insert_eq. }
    destruct c; cbn; (split; [| exact Hfs]);
      (eexists; split; [trace_eq |]); trace_facts.
Qed.

Lemma fetch_partial_restart (file : File) (url : string) (force : bool) (w : world) :
  new_request_ok E url = true ->
  force = true \/ fs w !! (Path file +:+ ".tmp") = None \/
    stat_fails E (Path file +:+ ".tmp") = true ->
  let x := mkRequest url None in
  let w' := snd (fetch_partial E file url force w) in
  (exists t, trace w' = trace w ++ t /\ requests t = [x] /\
             EvCreate (Path file +:+ ".tmp") ∈ t /\
             (EvOpenAppend (Path file +:+ ".tmp") ∉ t)) /\
  (create_fails E (Path file +:+ ".tmp") = false ->
   forall body c, http_do E x = Response body c ->
     exists mode, fs w' !! (Path file +:+ ".tmp") = Some (mkfile body mode (now E))).
Proof.
  intros Hurl Hcase.
  unfold fetch_partial. step_ops. rewrite Hurl; cbn.
  destruct force;
    (destruct (fs w !! (Path file +:+ ".tmp")) as [f|] eqn:Hf; cbn;
     [destruct (stat_fails E (Path file +:+ ".tmp")) eqn:Hstat; cbn |]);
    try (exfalso; destruct Hcase as [? | [? | ?]]; congruence).
  all: destruct (create_fails E (Path file +:+ ".tmp")) eqn:Hcr; cbn;
    try rewrite Hf; cbn;
    (destruct (http_do E _) as [|body c] eqn:Hdo; cbn;
     [| try rewrite lookup_insert_eq; cbn; destruct c; cbn ]).
  all: split;
    [ eexists; split; [trace_eq |]; trace_facts
    | intros Hc b c' Hr; try discriminate;
      try (injection Hr as <- <-); try (injection Hr as <-);
      eexists; rewrite ?insert_insert_eq; apply lookup_insert_eq ].
Qed.

End Transfer.

Section FetcherClaims.
Variable E : Env.

(** The trace of a whole call, from the traces of its two parts. *)
Lemma downloadFile_trace (file : File) (url : string) (force : bool) (w : world)
    (x : request) (P : list event -> Prop) :
  (forall w0, fs w0 = fs w ->
     exists t, trace (snd (fetch_partial E file url force w0)) = trace w0 ++ t /\
               requests t = [x] /\ P t) ->
  (forall t1 t2, P t1 -> Forall (install_event file) t2 ->
                 P (EvDownloadFile (Path file) url force :: t1 ++ t2)) ->
  exists t, trace (snd (downloadFile E file url force w)) = trace w ++ t /\
            requests t = [x] /\ P t.
Proof.
  intros Hfp HP. rewrite downloadFile_unfold.
  set (w0 := mkWorld (fs w) (trace w ++ [EvDownloadFile (Path file) url force])).
  destruct (Hfp w0 eq_refl) as (t1 & Ht1 & Hr1 & HP1).
  destruct (fetch_partial E file url force w0) as [[ended|] w1]; cbn [snd] in *.
  - exists (EvDownloadFile (Path file) url force :: t1).
    rewrite Ht1. subst w0; cbn [trace]. rewrite <- app_assoc.
    split; [reflexivity |]. split; [exact Hr1 |].
    specialize (HP t1 [] HP1 (List.Forall_nil _)). now rewrite app_nil_r in HP.
  - destruct (install_footprint E file w1) as ((t2 & Ht2 & HQ2) & _).
    exists (EvDownloadFile (Path file) url force :: t1 ++ t2).
    rewrite Ht2, Ht1. subst w0; cbn [trace]. rewrite <- !app_assoc.
    split; [reflexivity |]. split; [| now apply HP].
    change (requests (t1 ++ t2) = [x]). rewrite requests_app, Hr1.
    rewrite (requests_none (install_event file) t2); [reflexivity | | assumption].
    intros r H; exact H.
Qed.

(** C6. With the URL accepted by [http.NewRequest]: a non-forced call
    that finds a partial file sends one request, with the range header
    starting at the size of that file, opens the partial file for append
    without creating it anew, and after the transfer the partial file
    holds its old content followed by the response.  A forced call, and a
    call that finds no partial file, sends one request without range
    header, creates (truncates) the partial file, and after the transfer
    the partial file holds the response alone. *)
Theorem resume_or_full_request (file : File) (url : string) (w : world) :
  new_request_ok E url = true ->
  (forall f,
     fs w !! (Path file +:+ ".tmp") = Some f ->
     stat_fails E (Path file +:+ ".tmp") = false ->
     append_fails E (Path file +:+ ".tmp") = false ->
     let x := mkRequest url (Some (Z.of_nat (length (f_data f)))) in
     (exists t, trace (snd (downloadFile E file url false w)) = trace w ++ t /\
                requests t = [x] /\
                EvOpenAppend (Path file +:+ ".tmp") ∈ t /\
                (EvCreate (Path file +:+ ".tmp") ∉ t)) /\
     (forall body c, http_do E x = Response body c ->
        fs (snd (fetch_partial E file url false w)) !! (Path file +:+ ".tmp")
        = Some (mkfile (f_data f ++ body) (f_mode f) (now E)))) /\
  (forall force,
     force = true \/ fs w !! (Path file +:+ ".tmp") = None ->
     let x := mkRequest url None in
     (exists t, trace (snd (downloadFile E file url force w)) = trace w ++ t /\
                requests t = [x] /\
                EvCreate (Path file +:+ ".tmp") ∈ t /\
                (EvOpenAppend (Path file +:+ ".tmp") ∉ t)) /\
     (create_fails E (Path file +:+ ".tmp") = false ->
      forall body c, http_do E x = Response body c ->
        exists mode,
          fs (snd (fetch_partial E file url force w)) !! (Path file +:+ ".tmp")
          = Some (mkfile body mode (now E)))).
Proof.
  intros Hurl. split.
  - intros f Hf Hstat Happ x. split.
    + apply (downloadFile_trace file url false w x
               (fun t => EvOpenAppend (Path file +:+ ".tmp") ∈ t /\
                         (EvCreate (Path file +:+ ".tmp") ∉ t))).
      * intros w0 Hw0. rewrite <- Hw0 in Hf.
        destruct (fetch_partial_resume E file url w0 f Hurl Hf Hstat Happ)
          as ((t & Ht & Hr & Hin & Hnin) & _).
        now exists t.
      * intros t1 t2 [Hin Hnin] HQ. split.
        -- apply list_elem_of_further, elem_of_app. now left.
        -- apply not_elem_of_cons. split; [discriminate |].
           apply not_elem_of_app. split; [assumption |].
           intros Hc. rewrite Forall_forall in HQ. apply HQ in Hc. cbn in Hc.
           now apply (tmp_ne (Path file)).
    + now destruct (fetch_partial_resume E file url w f Hurl Hf Hstat Happ) as (_ & H).
  - intros force Hcase x.
    assert (Hcase' : forall w0, fs w0 = fs w ->
              force = true \/ fs w0 !! (Path file +:+ ".tmp") = None \/
              stat_fails E (Path file +:+ ".tmp") = true).
    { intros w0 ->. destruct Hcase; auto. }
    split.
    + apply (downloadFile_trace file url force w x
               (fun t => EvCreate (Path file +:+ ".tmp") ∈ t /\
                         (EvOpenAppend (Path file +:+ ".tmp") ∉ t))).
      * intros w0 Hw0.
        destruct (fetch_partial_restart E file url force w0 Hurl (Hcase' w0 Hw0))
          as ((t & Ht & Hr & Hin & Hnin) & _).
        now exists t.
      * intros t1 t2 [Hin Hnin] HQ. split.
        -- apply list_elem_of_further, elem_of_app. now left.
        -- apply not_elem_of_cons. split; [discriminate |].
           apply not_elem_of_app. split; [assumption |].
           intros Hc. rewrite Forall_forall in HQ. apply HQ in Hc. exact Hc.
    + now destruct (fetch_partial_restart E file url force w Hurl (Hcase' w eq_refl))
        as (_ & H).
Qed.

(** C8. Once the transfer has succeeded, [downloadFile] creates
    (truncates) the final path before it reopens and decompresses the
    partial file.  When the reopening fails the call returns an error and
    the final path holds an empty file; when the decompression fails the
    call returns that error and the final path holds only what the codec
    produced before failing.  In both cases the content installed before
    is gone. *)
Theorem failed_install_destroys_content (file : File) (url : string) (force : bool)
    (w0 w : world) (old : fnode) :
  fetch_partial E file url force
    (mkWorld (fs w0) (trace w0 ++ [EvDownloadFile (Path file) url force])) = (None, w) ->
  fs w !! Path file = Some old ->
  create_fails E (Path file) = false ->
  let r := downloadFile E file url force w0 in
  (exists t, trace (snd r) = trace w ++ EvCreate (Path file) :: t) /\
  ((fs w !! (Path file +:+ ".tmp") = None \/ open_fails E (Path file +:+ ".tmp") = true) ->
     fst r = Returned (Some ErrIO) /\
     fs (snd r) !! Path file = Some (mkfile [] (f_mode old) (now E)) /\
     (f_data old <> [] -> fs (snd r) !! Path file <> Some old)) /\
  (forall tf plain e,
     fs w !! (Path file +:+ ".tmp") = Some tf ->
     open_fails E (Path file +:+ ".tmp") = false ->
     read_fails E (Path file +:+ ".tmp") = false ->
     s2_decode E (f_data tf) = (plain, Some e) ->
     fst r = Returned (Some e) /\
     fs (snd r) !! Path file = Some (mkfile plain (f_mode old) (now E)) /\
     (f_data old <> plain -> fs (snd r) !! Path file <> Some old)).
Proof.
  intros Hfp Hold Hcr r. subst r.
  rewrite downloadFile_unfold, Hfp.
  pose proof (tmp_ne (Path file)) as Hne.
  unfold install. step_ops. rewrite Hcr; cbn. rewrite Hold; cbn.
  rewrite lookup_insert_ne by congruence.
  split; [| split].
  - run_ops; eexists; trace_eq.
  - intros [Hnone | Hop].
    + rewrite Hnone; cbn. rewrite lookup_insert_eq.
      repeat split. intros Hd [= H]. apply Hd. now rewrite <- H.
    + destruct (fs w !! (Path file +:+ ".tmp")) as [tf|]; cbn; [rewrite Hop; cbn |];
        rewrite lookup_insert_eq;
        (repeat split; intros Hd [= H]; apply Hd; now rewrite <- H).
  - intros tf plain e Htf Hop Hrd Hdec.
    rewrite Htf; cbn. rewrite Hop; cbn.
    rewrite lookup_insert_ne by congruence. rewrite Htf; cbn.
    rewrite Hrd, Hdec; cbn.
    rewrite lookup_insert_eq; cbn. rewrite insert_insert_eq, lookup_insert_eq.
    repeat split. intros Hd [= H]. apply Hd. now rewrite <- H.
Qed.

End FetcherClaims.

(** ** The dispatcher *)

Section Dispatcher.
Variable E : Env.

Lemma retry_loop_footprint (fuel : nat) (j : File) (url : string) (force : bool) (w : world) :
  let w' := snd (retry_loop E fuel j url force w) in
  (exists t, trace w' = trace w ++ t /\ Forall (job_event j) t) /\
  (forall q, q <> Path j +:+ ".tmp" -> q <> Path j -> fs w' !! q = fs w !! q).
Proof.
  revert force w. induction fuel as [|fuel IH]; intros force w; cbn [retry_loop].
  - cbn. split; [| reflexivity]. exists []. now rewrite app_nil_r.
  - unfold bind.
    destruct (downloadFile_attempts E j url force w) as (t1 & Ht1 & _ & HQ1).
    destruct (downloadFile_footprint E j url force w) as (_ & Hk1).
    destruct (downloadFile E j url force w) as [[[e|]|] w1]; cbn [snd] in *.
    + destruct force.
      * step_ops. split.
        -- eexists. rewrite Ht1, <- !app_assoc. split; [reflexivity |].
           apply Forall_app. split; [assumption |].
           repeat apply List.Forall_cons; try apply List.Forall_nil; right; right; exact I.
        -- exact Hk1.
      * unfold println, emit. cbn [fst snd].
        set (w2 := mkWorld (fs w1) (trace w1 ++ [EvPrint (" (" +:+ url +:+ "), Retrying")])).
        destruct (IH true w2) as ((t2 & Ht2 & HQ2) & Hk2). split.
        -- exists (t1 ++ EvPrint (" (" +:+ url +:+ "), Retrying") :: t2).
           rewrite Ht2. subst w2; cbn [trace]. rewrite Ht1, <- !app_assoc.
           split; [reflexivity |].
           apply Forall_app. split; [assumption |].
           apply List.Forall_cons; [right; right; exact I | assumption].
        -- intros q Hq1 Hq2. rewrite Hk2 by assumption. subst w2; cbn [fs]. now apply Hk1.
    + cbn. split; [| exact Hk1]. now exists t1.
    + cbn. split; [| exact Hk1]. now exists t1.
Qed.

(** C2. The retry loop of [worker] ends after one or two calls of
    [downloadFile] (two iterations of fuel are enough, whatever the
    environment does): the first call is not forced and a second call, if
    any, is forced.  When both calls return an error the loop has called
    [downloadFile] exactly twice, the job is given up ("failed again,
    check manually.") and acknowledged with [wg.Done]. *)
Theorem retry_at_most_twice (j : File) (url : string) (w : world) (fuel : nat) :
  (2 <= fuel)%nat ->
  exists r w' t,
    retry_loop E fuel j url DefaultForceDownload w = (Some r, w') /\
    trace w' = trace w ++ t /\
    (attempts t = [false] \/ attempts t = [false; true]) /\
    (forall e1 w1 e2 w2,
       downloadFile E j url false w = (Returned (Some e1), w1) ->
       downloadFile E j url true
         (mkWorld (fs w1) (trace w1 ++ [EvPrint (" (" +:+ url +:+ "), Retrying")]))
       = (Returned (Some e2), w2) ->
       r = JobAbandoned /\ attempts t = [false; true] /\ fs w' = fs w2 /\ EvDone ∈ t).
Proof.
  intros Hfuel. destruct fuel as [|[|fuel]]; [lia | lia |].
  unfold DefaultForceDownload. cbn [retry_loop]. unfold bind.
  destruct (downloadFile_attempts E j url false w) as (t1 & Ht1 & Ha1 & _).
  destruct (downloadFile E j url false w) as [[[e1|]|] w1]; cbn [snd] in *.
  - unfold println, emit. cbn [fst snd].
    set (w1' := mkWorld (fs w1) (trace w1 ++ [EvPrint (" (" +:+ url +:+ "), Retrying")])).
    destruct (downloadFile_attempts E j url true w1') as (t2 & Ht2 & Ha2 & _).
    destruct (downloadFile E j url true w1') as [[[e2|]|] w2] eqn:Hd2; cbn [snd] in *.
    + step_ops.
      eexists _, _, _. split; [reflexivity |]. cbn [trace].
      rewrite Ht2. subst w1'; cbn [trace]. rewrite Ht1, <- !app_assoc.
      split; [reflexivity |].
      assert (Hatt : attempts (t1 ++ [EvPrint (" (" +:+ url +:+ "), Retrying")] ++ t2 ++
                        [EvPrint ("Download for " +:+ url +:+ " failed again, check manually.")]
                        ++ [EvDone]) = [false; true]).
      { rewrite !attempts_app, Ha1, Ha2. reflexivity. }
      split; [now right |].
      intros e1' w1'' e2' w2' [= <- <-] H2.
      pose proof (eq_trans (eq_sym Hd2) H2) as Heq. injection Heq as <- <-.
      repeat split; [exact Hatt |].
      rewrite !elem_of_app. right; right; right; right. apply list_elem_of_here.
    + cbn. eexists _, _, _. split; [reflexivity |].
      rewrite Ht2. subst w1'; cbn [trace]. rewrite Ht1, <- !app_assoc.
      split; [reflexivity |].
      split; [right; rewrite !attempts_app, Ha1, Ha2; reflexivity |].
      intros e1' w1'' e2' w2' [= <- <-] H2.
      pose proof (eq_trans (eq_sym Hd2) H2) as Heq. discriminate.
    + cbn. eexists _, _, _. split; [reflexivity |].
      rewrite Ht2. subst w1'; cbn [trace]. rewrite Ht1, <- !app_assoc.
      split; [reflexivity |].
      split; [right; rewrite !attempts_app, Ha1, Ha2; reflexivity |].
      intros e1' w1'' e2' w2' [= <- <-] H2.
      pose proof (eq_trans (eq_sym Hd2) H2) as Heq. discriminate.
  - cbn. exists JobInstalled, w1, t1.
    split; [reflexivity |]. split; [assumption |]. split; [now left |].
    intros e1 w1' e2 w2 [=].
  - cbn. exists JobExited, w1, t1.
    split; [reflexivity |]. split; [assumption |]. split; [now left |].
    intros e1 w1' e2 w2 [=].
Qed.

Lemma worker_job_footprint (fuel : nat) (cdns : list Z) (id : nat) (j : File) (w : world) :
  let w' := snd (worker_job E fuel cdns id j w) in
  (exists t, trace w' = trace w ++ t /\ Forall (job_event j) t) /\
  (forall q, q <> Path j +:+ ".tmp" -> q <> Path j -> fs w' !! q = fs w !! q).
Proof.
  unfold worker_job. destruct (formattedUrl_of cdns id j) as [url|].
  - apply retry_loop_footprint.
  - cbn. split; [| reflexivity]. exists []. now rewrite app_nil_r.
Qed.

Lemma downloadFiles_from_footprint (fuel : nat) (cdns : list Z) (sched : nat -> nat)
    (queue : list File) (k : nat) (w : world) :
  let w' := snd (downloadFiles_from E fuel cdns sched k queue w) in
  (exists t, trace w' = trace w ++ t /\
             Forall (fun ev => exists j, j ∈ queue /\ job_event j ev) t) /\
  (forall q, (forall j, j ∈ queue -> q <> Path j +:+ ".tmp" /\ q <> Path j) ->
             fs w' !! q = fs w !! q).
Proof.
  revert k w. induction queue as [|j rest IH]; intros k w; cbn [downloadFiles_from].
  - cbn. split; [| reflexivity]. exists []. now rewrite app_nil_r.
  - unfold bind.
    destruct (worker_job_footprint fuel cdns (sched k) j w) as ((t1 & Ht1 & HQ1) & Hk1).
    assert (HQ1' : Forall (fun ev => exists j0, j0 ∈ j :: rest /\ job_event j0 ev) t1).
    { eapply Forall_impl; [exact HQ1 |]. intros ev Hev. exists j. split; [left | assumption]. }
    assert (Hk1' : forall q, (forall j0, j0 ∈ j :: rest ->
                                q <> Path j0 +:+ ".tmp" /\ q <> Path j0) ->
                             fs (snd (worker_job E fuel cdns (sched k) j w)) !! q = fs w !! q).
    { intros q Hq. destruct (Hq j) as [? ?]; [left |]. now apply Hk1. }
    destruct (worker_job E fuel cdns (sched k) j w) as [[r|] w1]; cbn [snd] in *.
    2:{ cbn. split; [now exists t1 | exact Hk1']. }
    destruct (IH (S k) w1) as ((t2 & Ht2 & HQ2) & Hk2).
    assert (Hgo : (exists t, trace (snd (let (a, w') := downloadFiles_from E fuel cdns sched (S k) rest w1
                                         in ret (option_map (cons r) a) w')) = trace w ++ t /\
                     Forall (fun ev => exists j0, j0 ∈ j :: rest /\ job_event j0 ev) t) /\
                  (forall q, (forall j0, j0 ∈ j :: rest ->
                                q <> Path j0 +:+ ".tmp" /\ q <> Path j0) ->
                     fs (snd (let (a, w') := downloadFiles_from E fuel cdns sched (S k) rest w1
                              in ret (option_map (cons r) a) w')) !! q = fs w !! q)).
    { destruct (downloadFiles_from E fuel cdns sched (S k) rest w1) as [rs w2]; cbn [snd ret] in *.
      split.
      - exists (t1 ++ t2). rewrite Ht2, Ht1, app_assoc. split; [reflexivity |].
        apply Forall_app. split; [assumption |].
        eapply Forall_impl; [exact HQ2 |]. intros ev (j0 & Hj0 & Hev).
        exists j0. split; [now right | assumption].
      - intros q Hq. rewrite Hk2, Hk1'; auto.
        intros j0 Hj0. apply Hq. now right. }
    destruct r; [exact Hgo | exact Hgo |].
    cbn. split; [now exists t1 | exact Hk1'].
Qed.

End Dispatcher.

(** ** Successful installs *)

Lemma Chtimes_mtime_fits (sec old : Z) :
  nano_fits sec -> Chtimes_mtime sec old = sec * 10 ^ 9.
Proof.
  unfold nano_fits, Chtimes_mtime, time_IsZero, time_UnixNano, zero_time_sec.
  intros H. destruct (Z.eqb_spec sec (- 62135596800)) as [-> | _]; [lia |].
  now apply int64_roundtrip.
Qed.

Lemma Chtimes_mtime_zero (old : Z) : Chtimes_mtime zero_time_sec old = old.
Proof. reflexivity. Qed.

Lemma worker_index_in_range (onlineCDNs : list Z) (id : nat) :
  onlineCDNs <> [] ->
  exists cdn, cdn ∈ onlineCDNs /\
              onlineCDNs !! (id mod length onlineCDNs)%nat = Some cdn /\
              onlineCDNs !! ((id + length onlineCDNs) mod length onlineCDNs)%nat = Some cdn.
Proof.
  intros Hne.
  assert (Hlen : length onlineCDNs <> 0%nat) by (destruct onlineCDNs; cbn; congruence).
  replace ((id + length onlineCDNs) mod length onlineCDNs)%nat
    with (id mod length onlineCDNs)%nat
    by (rewrite <- (Nat.Div0.mod_add id 1 (length onlineCDNs)); f_equal; lia).
  destruct (lookup_lt_is_Some_2 onlineCDNs (id mod length onlineCDNs)%nat) as [cdn Hcdn].
  { now apply Nat.mod_upper_bound. }
  exists cdn. split; [now apply list_elem_of_lookup_2 in Hcdn | now split].
Qed.

Section Installs.
Variable E : Env.

(** After a successful install: what is at the final path, and that the
    partial file is gone. *)
Lemma install_result (file : File) (w : world) (tf : fnode) (plain : list Z) :
  fault_free E file ->
  fs w !! (Path file +:+ ".tmp") = Some tf ->
  s2_decode E (f_data tf) = (plain, None) ->
  fst (install E file w) = Returned None /\
  fs (snd (install E file w)) !! Path file = Some (installed_file E (fs w) file plain) /\
  fs (snd (install E file w)) !! (Path file +:+ ".tmp") = None.
Proof.
  intros (Hst & Hap & Hct & Hop & Hrd & Hrm & Hcf & Hch) Htf Hdec.
  pose proof (tmp_ne (Path file)) as Hne.
  unfold install, installed_file, mode_after_create. step_ops.
  rewrite Hcf. cbn. rewrite lookup_insert_ne, Htf by congruence. cbn.
  rewrite Hop. cbn. rewrite lookup_insert_ne, Htf by congruence. cbn.
  rewrite Hrd, Hdec. cbn. rewrite lookup_insert_eq. cbn.
  rewrite Hrm. cbn. rewrite Hch. cbn.
  rewrite lookup_delete_ne, lookup_insert_eq by congruence. cbn.
  split; [reflexivity |]. split.
  - now rewrite lookup_insert_eq.
  - rewrite lookup_insert_ne by congruence. apply lookup_delete_eq.
Qed.

Lemma fetch_partial_fresh_result (file : File) (url : string) (force : bool) (w : world)
    (body : list Z) :
  new_request_ok E url = true ->
  create_fails E (Path file +:+ ".tmp") = false ->
  force = true \/ fs w !! (Path file +:+ ".tmp") = None ->
  http_do E (mkRequest url None) = Response body true ->
  fst (fetch_partial E file url force w) = None /\
  exists mode,
    fs (snd (fetch_partial E file url force w)) !! (Path file +:+ ".tmp")
    = Some (mkfile body mode (now E)).
Proof.
  intros Hurl Hct Hcase Hdo.
  unfold fetch_partial. step_ops. rewrite Hurl. cbn.
  destruct force;
    (destruct (fs w !! (Path file +:+ ".tmp")) as [f|] eqn:Hf; cbn;
     [destruct (stat_fails E (Path file +:+ ".tmp")) eqn:Hstat; cbn |]);
    try (exfalso; destruct Hcase as [? | ?]; congruence).
  all: rewrite Hct; cbn; try rewrite Hf; cbn; rewrite Hdo; cbn;
    rewrite lookup_insert_eq; cbn;
    (split; [reflexivity |]); eexists; apply lookup_insert_eq.
Qed.

Lemma fetch_partial_resume_result (file : File) (url : string) (w : world)
    (f : fnode) (body : list Z) :
  new_request_ok E url = true ->
  stat_fails E (Path file +:+ ".tmp") = false ->
  append_fails E (Path file +:+ ".tmp") = false ->
  fs w !! (Path file +:+ ".tmp") = Some f ->
  http_do E (mkRequest url (Some (Z.of_nat (length (f_data f))))) = Response body true ->
  fst (fetch_partial E file url false w) = None /\
  fs (snd (fetch_partial E file url false w)) !! (Path file +:+ ".tmp")
  = Some (mkfile (f_data f ++ body) (f_mode f) (now E)).
Proof.
  intros Hurl Hst Hap Hf Hdo.
  unfold fetch_partial. step_ops.
  rewrite Hf, Hst, Hurl. cbn. rewrite Hap. cbn. rewrite Hf. cbn.
  rewrite Hdo. cbn. rewrite Hf. cbn.
  split; [reflexivity | apply lookup_insert_eq].
Qed.

(** A call whose transfer leaves [packed] in the partial file, and whose
    codec accepts it, installs the decoded content. *)
Lemma downloadFile_installs (file : File) (url : string) (force : bool) (w : world)
    (tf : fnode) (plain : list Z) :
  fault_free E file ->
  fst (fetch_partial E file url force
         (mkWorld (fs w) (trace w ++ [EvDownloadFile (Path file) url force]))) = None ->
  fs (snd (fetch_partial E file url force
             (mkWorld (fs w) (trace w ++ [EvDownloadFile (Path file) url force]))))
    !! (Path file +:+ ".tmp") = Some tf ->
  s2_decode E (f_data tf) = (plain, None) ->
  fst (downloadFile E file url force w) = Returned None /\
  fs (snd (downloadFile E file url force w)) !! Path file
  = Some (installed_file E (fs w) file plain) /\
  fs (snd (downloadFile E file url force w)) !! (Path file +:+ ".tmp") = None.
Proof.
  intros Hff Hnone Htf Hdec.
  rewrite downloadFile_unfold.
  set (w0 := mkWorld (fs w) (trace w ++ [EvDownloadFile (Path file) url force])) in *.
  destruct (fetch_partial_footprint E file url force w0) as (_ & Hkeep).
  destruct (fetch_partial E file url force w0) as [[ended|] w1]; cbn [fst snd] in *;
    [discriminate |].
  destruct (install_result file w1 tf plain Hff Htf Hdec) as (Hr & Hfs & Htmp).
  assert (Hmode : installed_file E (fs w1) file plain = installed_file E (fs w) file plain).
  { unfold installed_file, mode_after_create. rewrite Hkeep by apply tmp_ne. reflexivity. }
  rewrite Hmode in Hfs. auto.
Qed.

(** A fresh download (forced, or with no partial file) whose request is
    answered completely with a payload that the codec accepts. *)
Lemma downloadFile_fresh (file : File) (url : string) (force : bool) (w : world)
    (body plain : list Z) :
  new_request_ok E url = true ->
  fault_free E file ->
  force = true \/ fs w !! (Path file +:+ ".tmp") = None ->
  http_do E (mkRequest url None) = Response body true ->
  s2_decode E body = (plain, None) ->
  fst (downloadFile E file url force w) = Returned None /\
  fs (snd (downloadFile E file url force w)) !! Path file
  = Some (installed_file E (fs w) file plain) /\
  fs (snd (downloadFile E file url force w)) !! (Path file +:+ ".tmp") = None /\
  (forall q, q <> Path file -> q <> Path file +:+ ".tmp" ->
             fs (snd (downloadFile E file url force w)) !! q = fs w !! q).
Proof.
  intros Hurl Hff Hcase Hdo Hdec.
  pose proof Hff as (_ & _ & Hct & _).
  set (w0 := mkWorld (fs w) (trace w ++ [EvDownloadFile (Path file) url force])).
  destruct (fetch_partial_fresh_result file url force w0 body Hurl Hct Hcase Hdo)
    as (Hnone & mode & Htf).
  destruct (downloadFile_installs file url force w (mkfile body mode (now E)) plain
              Hff Hnone Htf Hdec) as (Hr & Hfs & Htmp).
  repeat split; try assumption.
  intros q Hq1 Hq2.
  now destruct (downloadFile_footprint E file url force w) as (_ & ->).
Qed.

(** The job of a worker for an entry without a partial file, on an
    endpoint that serves a payload the codec accepts: the first call of
    [downloadFile] installs the decoded content. *)
Lemma worker_job_fresh (fuel : nat) (cdns : list Z) (id : nat) (j : File) (w : world)
    (url : string) (body plain : list Z) :
  (1 <= fuel)%nat ->
  formattedUrl_of cdns id j = Some url ->
  new_request_ok E url = true ->
  fault_free E j ->
  fs w !! (Path j +:+ ".tmp") = None ->
  http_do E (mkRequest url None) = Response body true ->
  s2_decode E body = (plain, None) ->
  fst (worker_job E fuel cdns id j w) = Some JobInstalled /\
  fs (snd (worker_job E fuel cdns id j w)) !! Path j
  = Some (installed_file E (fs w) j plain) /\
  fs (snd (worker_job E fuel cdns id j w)) !! (Path j +:+ ".tmp") = None /\
  (forall q, q <> Path j -> q <> Path j +:+ ".tmp" ->
             fs (snd (worker_job E fuel cdns id j w)) !! q = fs w !! q).
Proof.
  intros Hfuel Hu Hurl Hff Htmp Hdo Hdec.
  destruct fuel as [|fuel]; [lia |].
  unfold worker_job. rewrite Hu. cbn [retry_loop]. unfold bind, DefaultForceDownload.
  destruct (downloadFile_fresh j url false w body plain Hurl Hff (or_intror Htmp) Hdo Hdec)
    as (Hr & Hfs & Ht & Hk).
  destruct (downloadFile E j url false w) as [r w1]. cbn [fst snd] in *. subst r.
  cbn. auto.
Qed.

End Installs.

(** ** The whole run *)

Section Run.
Variable E : Env.

Lemma main_unfold (fuel : nat) (sched : nat -> nat) (w : world) :
  main E fuel sched w =
  if snd (checkCDNStatus E) =? 0 then (FatalNoServers, w)
  else
    match fetchVersionFile E (fst (checkCDNStatus E)) with
    | Some (Some vf, None) =>
        let '(queue, w1) := verifyFiles E (Files vf) w in
        let '(r, w2) := downloadFiles E fuel (fst (checkCDNStatus E)) sched queue w1 in
        (match r with Some jobs => Ran queue jobs | None => Stuck end, w2)
    | Some (_, _) => (FatalVersionFile, w)
    | None => (Stuck, w)
    end.
Proof.
  unfold main. destruct (checkCDNStatus E) as [cdns n]. cbn [fst snd].
  destruct (n =? 0); [reflexivity |].
  destruct (fetchVersionFile E cdns) as [[[vf|] [e|]]|]; try reflexivity.
  unfold bind, ret.
  destruct (verifyFiles E (Files vf) w) as [queue w1].
  destruct (downloadFiles E fuel cdns sched queue w1) as [[jobs|] w2]; reflexivity.
Qed.





End Run.

Section Idempotence.
Variable E : Env.



End Idempotence.

Section ModeClaim.
Variable E : Env.

(** C9. The verifier skips an entry as custom exactly when its file
    opens, its [Stat] succeeds and its mode is equal to 0444.  A file
    with any other mode (0440 and 0555 are other modes) is read for
    hashing and, when its digest differs, queued.  The job of a queued
    entry then overwrites the file at the entry's path like any other:
    [downloadFile] never looks at the mode, and where the operating
    system lets it work and the endpoint serves a payload that the codec
    accepts, the file holds the decoded content afterwards and keeps the
    mode it had, whatever that mode was. *)
Theorem custom_only_mode_0444 (file : File) (w : world) :
  (classify E file w = Custom <->
     exists f, fs w !! local_path E file = Some f /\
               open_fails E (local_path E file) = false /\
               stat_fails E (local_path E file) = false /\ f_mode f = mode_0444) /\
  (forall f,
     fs w !! local_path E file = Some f ->
     f_mode f <> mode_0444 ->
     open_fails E (local_path E file) = false ->
     classify E file w <> Custom /\
     (exists t, trace (snd (verifyFile E file w)) = trace w ++ t /\
                EvRead (local_path E file) ∈ t) /\
     (read_fails E (local_path E file) = false ->
      digest E (f_data f) <> Hash file ->
      classify E file w = NeedDownload /\
      forall files, file ∈ files -> file ∈ fst (verifyFiles E files w))) /\
  (forall f w1 fuel cdns id url body plain,
     fs w1 !! Path file = Some f ->
     (1 <= fuel)%nat ->
     formattedUrl_of cdns id file = Some url ->
     new_request_ok E url = true ->
     fault_free E file ->
     fs w1 !! (Path file +:+ ".tmp") = None ->
     http_do E (mkRequest url None) = Response body true ->
     s2_decode E body = (plain, None) ->
     fst (worker_job E fuel cdns id file w1) = Some JobInstalled /\
     fs (snd (worker_job E fuel cdns id file w1)) !! Path file
     = Some (mkfile plain (f_mode f) (Chtimes_mtime (LastModified file) (now E)))) /\
  mode_0440 <> mode_0444 /\ mode_0555 <> mode_0444.
Proof.
  split; [| split; [| split]].
  - rewrite classify_verdict_of. apply verdict_of_Custom.
  - intros f Hf Hmode Hop.
    assert (Hnc : classify E file w <> Custom).
    { rewrite classify_verdict_of. intros Hc.
      apply verdict_of_Custom in Hc as (f' & Hf' & _ & _ & Hm). congruence. }
    split; [exact Hnc |]. split.
    + now apply (verifyFile_reads E file w f).
    + intros Hrd Hd.
      assert (Hn : classify E file w = NeedDownload).
      { rewrite classify_verdict_of. apply verdict_of_NeedDownload.
        right; right. exists f. repeat split; try assumption.
        - intros [_ Hm]. contradiction.
        - now right. }
      split; [exact Hn |].
      intros files Hin. rewrite verifyFiles_queue. now apply list_elem_of_filter.
  - intros f w1 fuel cdns id url body plain Hf Hfuel Hu Hurl Hff Htmp Hdo Hdec.
    destruct (worker_job_fresh E fuel cdns id file w1 url body plain
                Hfuel Hu Hurl Hff Htmp Hdo Hdec) as (Hr & Hfs & _).
    split; [exact Hr |].
    rewrite Hfs. unfold installed_file, mode_after_create. now rewrite Hf.
  - split; discriminate.
Qed.

End ModeClaim.

(** ** Runs of the model on the small environment *)

Lemma custom_only_mode_0444_witness :
  classify sample_env sample_File group_readonly_world = NeedDownload /\
  sample_File ∈ fst (verifyFiles sample_env [sample_File] group_readonly_world) /\
  fst (worker_job sample_env 2 [0] 0 sample_File group_readonly_world) = Some JobInstalled /\
  fs (snd (worker_job sample_env 2 [0] 0 sample_File group_readonly_world)) !! "a.bin"
  = Some (mkfile sample_content mode_0440 (1700000000 * 10 ^ 9)).
Proof.
  set (E := sample_env). set (w := group_readonly_world).
  destruct (custom_only_mode_0444 E sample_File w) as (_ & H & Hjob & _).
  assert (Hmode : mode_0440 <> mode_0444) by discriminate.
  pose proof (H (mkfile [98] mode_0440 0) eq_refl Hmode eq_refl) as (_ & _ & Hq).
  assert (Hd : digest E [98] <> Hash sample_File) by (vm_compute; discriminate).
  destruct (Hq eq_refl Hd) as [Hn Hin].
  split; [exact Hn |]. split; [apply Hin; left |].
  assert (Hfuel : (1 <= 2)%nat) by lia.
  assert (Hu : formattedUrl_of [0] 0 sample_File = Some "https://cdn0.burningsw.to/a.bin")
    by (vm_compute; reflexivity).
  assert (Hff : fault_free E sample_File) by (repeat split; reflexivity).
  assert (Hdec : s2_decode E sample_payload = (sample_content, None))
    by (vm_compute; reflexivity).
  exact (Hjob (mkfile [98] mode_0440 0) w 2%nat [0] 0%nat "https://cdn0.burningsw.to/a.bin"
           sample_payload sample_content eq_refl Hfuel Hu eq_refl Hff eq_refl eq_refl Hdec).
Defined.

Lemma uptodate_digest_matches_witness :
  sample_File ∈ [sample_File] /\
  classify offline_env sample_File installed_world = OK /\
  (sample_File ∉ fst (verifyFiles offline_env [sample_File] installed_world)).
Proof.
  set (E := offline_env). set (w := installed_world).
  assert (Hin : sample_File ∈ [sample_File]) by left.
  assert (Hok : classify E sample_File w = OK) by (vm_compute; reflexivity).
  split; [exact Hin |]. split; [exact Hok |].
  exact (proj1 (proj1 (uptodate_digest_matches E [sample_File] w sample_File Hin) Hok)).
Defined.

Lemma verifyFiles_total_witness :
  exists queue w', verifyFiles offline_env [sample_File] empty_world = (queue, w') /\
                   sample_File ∈ queue.
Proof.
  destruct (verifyFiles_total offline_env [sample_File] empty_world)
    as (queue & w' & Hrun & _ & H).
  exists queue, w'. split; [exact Hrun |].
  destruct (H sample_File) as [Hmissing _]; [left |].
  apply Hmissing. left. reflexivity.
Defined.

Lemma retry_at_most_twice_witness :
  (2 <= 2)%nat /\
  exists w', retry_loop offline_env 2 sample_File "u" false empty_world
             = (Some JobAbandoned, w') /\
             attempts (trace w') = [false; true].
Proof.
  split; [lia |].
  destruct (retry_at_most_twice offline_env sample_File "u" empty_world 2)
    as (r & w' & t & Hrun & Ht & _ & Hfail); [lia |].
  edestruct Hfail as (-> & Ha & _ & _).
  - vm_compute. reflexivity.
  - vm_compute. reflexivity.
  - exists w'. split; [exact Hrun |]. rewrite Ht. exact Ha.
Defined.

Lemma resume_or_full_request_witness :
  new_request_ok garbage_env "u" = true /\
  fs (snd (fetch_partial garbage_env sample_File "u" false partial_world)) !! "a.bin.tmp"
  = Some (mkfile [83; 97; 1; 2; 3] mode_0644 1000) /\
  (exists mode,
     fs (snd (fetch_partial garbage_env sample_File "u" true partial_world)) !! "a.bin.tmp"
     = Some (mkfile [1; 2; 3] mode 1000)).
Proof.
  set (E := garbage_env). set (w := partial_world).
  assert (Hurl : new_request_ok E "u" = true) by reflexivity.
  split; [exact Hurl |].
  destruct (resume_or_full_request E sample_File "u" w Hurl) as [Hresume Hfull].
  split.
  - pose proof (Hresume (mkfile [83; 97] mode_0644 0) eq_refl eq_refl eq_refl) as [_ Hfs].
    exact (Hfs [1; 2; 3] true eq_refl).
  - pose proof (Hfull true (or_introl eq_refl)) as [_ Hfs].
    exact (Hfs eq_refl [1; 2; 3] true eq_refl).
Defined.





Lemma failed_install_destroys_content_witness :
  fs installed_world !! "a.bin" = Some (mkfile sample_content mode_0644 0) /\
  fst (downloadFile garbage_env sample_File "u" true installed_world)
  = Returned (Some ErrCorrupt) /\
  fs (snd (downloadFile garbage_env sample_File "u" true installed_world)) !! "a.bin"
  = Some (mkfile [] mode_0644 1000).
Proof.
  set (E := garbage_env). set (w0 := installed_world).
  set (start := mkWorld (fs w0) (trace w0 ++ [EvDownloadFile (Path sample_File) "u" true])).
  assert (Hfp : fetch_partial E sample_File "u" true start
                = (None, snd (fetch_partial E sample_File "u" true start)))
    by (vm_compute; reflexivity).
  assert (Hold : fs (snd (fetch_partial E sample_File "u" true start)) !! Path sample_File
                 = Some (mkfile sample_content mode_0644 0))
    by (vm_compute; reflexivity).
  pose proof (failed_install_destroys_content E sample_File "u" true w0 _ _
                Hfp Hold eq_refl) as (_ & _ & Hdec).
  assert (Htf : fs (snd (fetch_partial E sample_File "u" true start))
                  !! (Path sample_File +:+ ".tmp")
                = Some (mkfile [1; 2; 3] (create_mode E) 1000))
    by (vm_compute; reflexivity).
  destruct (Hdec _ [] ErrCorrupt Htf eq_refl eq_refl eq_refl) as (Hr & Hfs & _).
  split; [reflexivity |]. split; [exact Hr | exact Hfs].
Defined.


(** * Further properties of the code *)

(** ** The manifest decoder on arbitrary byte streams *)

Lemma le_uint_range (bs : list Z) :
  Forall is_byte bs -> 0 <= le_uint bs < 256 ^ Z.of_nat (length bs).
Proof.
  induction 1 as [|b bs Hb _ IH]; cbn [le_uint length].
  - cbn. lia.
  - rewrite Nat2Z.inj_succ, Z.pow_succ_r by lia. unfold is_byte in Hb. lia.
Qed.

Lemma readFull_bytes (n : nat) (buf : list Z) :
  Forall is_byte buf ->
  Forall is_byte (snd (fst (readFull n buf))) /\ Forall is_byte (snd (readFull n buf)) /\
  (fst (fst (readFull n buf)) = None -> length (snd (fst (readFull n buf))) = n).
Proof.
  intros Hb. unfold readFull.
  destruct (Nat.leb_spec n (length buf)); cbn [fst snd].
  - split; [now apply Forall_take |]. split; [now apply Forall_drop |].
    intros _. rewrite length_take. lia.
  - repeat split; try constructor. discriminate.
Qed.

Lemma binary_Read_uint32_range (cur : Z) (buf : list Z) :
  Forall is_byte buf -> 0 <= cur < 2 ^ 32 ->
  0 <= snd (fst (binary_Read_uint32 cur buf)) < 2 ^ 32 /\
  Forall is_byte (snd (binary_Read_uint32 cur buf)).
Proof.
  intros Hb Hcur. unfold binary_Read_uint32.
  destruct (readFull_bytes 4 buf Hb) as (Hbs & Hrest & Hlen).
  destruct (readFull 4 buf) as [[[e|] bs] rest]; cbn [fst snd] in *.
  - now split.
  - split; [| assumption].
    pose proof (le_uint_range bs Hbs) as Hr. rewrite (Hlen eq_refl) in Hr.
    change (256 ^ Z.of_nat 4) with (2 ^ 32) in Hr. exact Hr.
Qed.

Lemma binary_Read_int64_range (cur : Z) (buf : list Z) :
  Forall is_byte buf -> - 2 ^ 63 <= cur < 2 ^ 63 ->
  - 2 ^ 63 <= snd (fst (binary_Read_int64 cur buf)) < 2 ^ 63 /\
  Forall is_byte (snd (binary_Read_int64 cur buf)).
Proof.
  intros Hb Hcur. unfold binary_Read_int64.
  destruct (readFull_bytes 8 buf Hb) as (Hbs & Hrest & Hlen).
  destruct (readFull 8 buf) as [[[e|] bs] rest]; cbn [fst snd] in *.
  - now split.
  - split; [| assumption].
    pose proof (le_uint_range bs Hbs) as Hr. rewrite (Hlen eq_refl) in Hr.
    change (256 ^ Z.of_nat 8) with (2 ^ 64) in Hr.
    unfold int64_of_uint64. destruct (Z.ltb_spec (le_uint bs) (2 ^ 63)); lia.
Qed.

Lemma binary_Read_bytes_length (cur : list Z) (buf : list Z) :
  Forall is_byte buf ->
  length (snd (fst (binary_Read_bytes cur buf))) = length cur /\
  Forall is_byte (snd (binary_Read_bytes cur buf)).
Proof.
  intros Hb. unfold binary_Read_bytes.
  destruct (readFull_bytes (length cur) buf Hb) as (Hbs & Hrest & Hlen).
  destruct (readFull (length cur) buf) as [[[e|] bs] rest]; cbn [fst snd] in *.
  - now split.
  - split; [now apply Hlen | assumption].
Qed.

Lemma length_string_of_bytes (bs : list Z) :
  String.length (string_of_bytes bs) = length bs.
Proof.
  unfold string_of_bytes. induction bs as [|b bs IH]; cbn; [reflexivity | now rewrite IH].
Qed.

Lemma read_File_wf (buffer : list Z) :
  Forall is_byte buffer ->
  wf_File (fst (read_File buffer)) /\ Forall is_byte (snd (read_File buffer)).
Proof.
  intros Hb. unfold read_File, zero_File. cbn [PathLen HashLen LastModified].
  destruct (binary_Read_uint32_range 0 buffer Hb ltac:(lia)) as [Hpl Hb1].
  destruct (binary_Read_uint32 0 buffer) as [[e1 pathLen] buffer1]. cbn [fst snd] in *.
  destruct (binary_Read_bytes_length (make_bytes pathLen) buffer1 Hb1) as [Hpb Hb2].
  destruct (binary_Read_bytes (make_bytes pathLen) buffer1) as [[e2 strBuffer] buffer2].
  cbn [fst snd] in *.
  destruct (binary_Read_uint32_range 0 buffer2 Hb2 ltac:(lia)) as [Hhl Hb3].
  destruct (binary_Read_uint32 0 buffer2) as [[e3 hashLen] buffer3]. cbn [fst snd] in *.
  destruct (binary_Read_bytes_length (make_bytes hashLen) buffer3 Hb3) as [Hhb Hb4].
  destruct (binary_Read_bytes (make_bytes hashLen) buffer3) as [[e4 hashBuffer] buffer4].
  cbn [fst snd] in *.
  destruct (binary_Read_int64_range 0 buffer4 Hb4 ltac:(lia)) as [Hlm Hb5].
  destruct (binary_Read_int64 0 buffer4) as [[e5 lastModified] buffer5]. cbn [fst snd] in *.
  split; [| assumption].
  unfold wf_File. cbn [PathLen Path HashLen Hash LastModified].
  rewrite !length_string_of_bytes, Hpb, Hhb, !length_make_bytes.
  rewrite !Z2Nat.id by lia. repeat split; lia.
Qed.

Lemma read_Files_wf (n : nat) (buffer : list Z) :
  Forall is_byte buffer -> Forall wf_File (fst (read_Files n buffer)).
Proof.
  revert buffer. induction n as [|n IH]; intros buffer Hb; cbn [read_Files].
  - constructor.
  - destruct (read_File_wf buffer Hb) as [Hf Hb1].
    destruct (read_File buffer) as [file buffer1]. cbn [fst snd] in *.
    specialize (IH buffer1 Hb1).
    destruct (read_Files n buffer1) as [files buffer2]. cbn [fst] in *.
    now constructor.
Qed.

(** X1. Whatever bytes arrive, the manifest that [fetchVersionFile]
    decodes from them is well formed: the header has 16 bytes, the list
    has as many entries as the count, and in every entry [PathLen] and
    [HashLen] are the lengths of [Path] and [Hash] and every number is in
    the range of its type.  This holds for truncated streams too (a path
    cut short is filled with NUL bytes up to its declared length), so a
    decoded manifest is always reproduced by encoding and decoding it
    again. *)
Theorem decoded_manifest_well_formed (data : list Z) :
  Forall is_byte data ->
  wf_VersionFile (decodeVersionFile data) /\
  decodeVersionFile (encodeVersionFile (decodeVersionFile data)) = decodeVersionFile data.
Proof.
  intros Hb.
  assert (Hwf : wf_VersionFile (decodeVersionFile data)).
  { unfold decodeVersionFile, deobfuscate.
    pose proof (xor_from_bytes data 0 Hb) as Hb0.
    destruct (binary_Read_bytes_length (replicate 16 0) _ Hb0) as [Hpad Hb1].
    destruct (binary_Read_bytes (replicate 16 0) (xor_from 0 data)) as [[e1 padding] buffer1].
    cbn [fst snd] in *.
    destruct (binary_Read_uint32_range 0 buffer1 Hb1 ltac:(lia)) as [Hn Hb2].
    destruct (binary_Read_uint32 0 buffer1) as [[e2 n] buffer2]. cbn [fst snd] in *.
    pose proof (read_Files_wf (Z.to_nat n) buffer2 Hb2) as Hfiles.
    pose proof (length_read_Files (Z.to_nat n) buffer2) as Hlen.
    destruct (read_Files (Z.to_nat n) buffer2) as [files buffer3]. cbn [fst] in *.
    unfold wf_VersionFile. cbn [Padding NumberOfFiles Files].
    rewrite Hpad, length_replicate, Hlen, Z2Nat.id by lia.
    repeat split; try lia. assumption. }
  split; [exact Hwf | now apply decode_encode].
Qed.

Lemma xor_from_app (a b : list Z) (i : Z) :
  xor_from i (a ++ b) = xor_from i a ++ xor_from (i + Z.of_nat (length a)) b.
Proof.
  revert i. induction a as [|x a IH]; intros i; cbn [xor_from app length].
  - now rewrite Z.add_0_r.
  - rewrite IH. do 3 f_equal. lia.
Qed.

(** Decoding, on the plain stream. *)
Lemma decode_plain (pad : list Z) (n : Z) (entries junk : list Z) :
  length pad = 16%nat -> 0 <= n < 2 ^ 32 ->
  decodeVersionFile (xor_from 0 (pad ++ le_bytes 4 n ++ entries) ++ junk) =
  mkVersionFile pad n
    (fst (read_Files (Z.to_nat n)
            (entries ++ xor_from (Z.of_nat (length (pad ++ le_bytes 4 n ++ entries))) junk))).
Proof.
  intros Hpad Hn. unfold decodeVersionFile, deobfuscate.
  rewrite xor_from_app, xor_from_involutive, length_xor_from, Z.add_0_l.
  set (junk' := xor_from _ junk).
  rewrite <- !app_assoc.
  rewrite binary_Read_bytes_app by (rewrite length_replicate; lia).
  rewrite binary_Read_uint32_app by lia.
  now destruct (read_Files (Z.to_nat n) (entries ++ junk')) as [files rest].
Qed.

(** X2. Bytes that follow the declared entries are ignored: a well-formed
    manifest is decoded unchanged from its stream followed by anything. *)
Theorem trailing_bytes_ignored (v : VersionFile) (junk : list Z) :
  wf_VersionFile v ->
  decodeVersionFile (encodeVersionFile v ++ junk) = v.
Proof.
  destruct v as [pad n files].
  unfold wf_VersionFile, encodeVersionFile, encode_plain. cbn [Padding NumberOfFiles Files].
  intros (Hpad & Hn & Hb & Hfiles).
  rewrite decode_plain by lia.
  rewrite Hn at 2. rewrite Nat2Z.id, read_Files_encode by assumption. reflexivity.
Qed.

Lemma read_Files_encode_short (files : list File) (k : nat) :
  Forall wf_File files ->
  read_Files (length files + k) (concat (map encode_File files)) =
  (files ++ replicate k zero_File, []).
Proof.
  induction 1 as [|f files Hf _ IH]; cbn [length map concat Nat.add app].
  - apply read_Files_nil.
  - cbn [read_Files]. rewrite read_File_encode by assumption. now rewrite IH.
Qed.

(** X3. A manifest that declares [k] more entries than its stream holds
    is decoded without error into the entries it holds followed by [k]
    zero-valued entries (empty path, empty hash, time 0). *)
Theorem missing_entries_are_zero (v : VersionFile) (k : Z) :
  wf_VersionFile v -> 0 <= k -> NumberOfFiles v + k < 2 ^ 32 ->
  decodeVersionFile
    (encodeVersionFile (mkVersionFile (Padding v) (NumberOfFiles v + k) (Files v))) =
  mkVersionFile (Padding v) (NumberOfFiles v + k)
    (Files v ++ replicate (Z.to_nat k) zero_File).
Proof.
  destruct v as [pad n files].
  unfold wf_VersionFile, encodeVersionFile, encode_plain. cbn [Padding NumberOfFiles Files].
  intros (Hpad & Hn & Hb & Hfiles) Hk Hnk.
  rewrite <- (app_nil_r (xor_from 0 _)).
  rewrite decode_plain by lia.
  cbn [xor_from]. rewrite app_nil_r.
  replace (Z.to_nat (n + k)) with (length files + Z.to_nat k)%nat by lia.
  now rewrite read_Files_encode_short.
Qed.

Lemma xor_from_shift (data : list Z) (i j : Z) :
  0 <= i -> 0 <= j -> i mod 255 = j mod 255 -> xor_from i data = xor_from j data.
Proof.
  revert i j. induction data as [|b data IH]; intros i j Hi Hj Hij; cbn [xor_from].
  - reflexivity.
  - f_equal.
    + now rewrite !xor_key_spec, Hij by lia.
    + apply IH; try lia.
      rewrite (Z.add_mod i 1), (Z.add_mod j 1), Hij by lia. reflexivity.
Qed.

(** X4. The key repeats every 255 bytes (not 256): a stream whose first
    part has a length that is a multiple of 255 is de-obfuscated part by
    part. *)
Theorem deobfuscate_by_chunks (a b : list Z) (k : Z) :
  Z.of_nat (length a) = 255 * k ->
  deobfuscate (a ++ b) = deobfuscate a ++ deobfuscate b.
Proof.
  intros Hlen. unfold deobfuscate. rewrite xor_from_app. f_equal.
  apply xor_from_shift; try lia.
  rewrite Z.add_0_l, Hlen, Z.mul_comm, Z_mod_mult. reflexivity.
Qed.

(** ** Further properties of the verifier *)

Lemma hex_digit_in_table (n : Z) : hex_digit n ∈ list_ascii_of_string hextable.
Proof.
  unfold hex_digit. generalize (Z.to_nat n). intros m.
  do 16 (destruct m as [|m]; [cbn; in_trace |]).
  cbn. in_trace.
Qed.

Lemma hex_EncodeToString_chars (bs : list Z) (c : ascii) :
  c ∈ list_ascii_of_string (hex_EncodeToString bs) ->
  c ∈ list_ascii_of_string hextable.
Proof.
  induction bs as [|b bs IH]; cbn [hex_EncodeToString list_ascii_of_string].
  - intros H. now apply elem_of_nil in H.
  - intros H. apply elem_of_cons in H as [-> | H]; [apply hex_digit_in_table |].
    apply elem_of_cons in H as [-> | H]; [apply hex_digit_in_table | now apply IH].
Qed.

Section VerifierExtras.
Variable E : Env.

(** X5. The verifier can only find an entry up to date if the hash the
    manifest records for it is written in the digits [0-9a-f] (lower
    case) and has an even number of characters: an entry with an
    upper-case or otherwise foreign character in its hash is never found
    up to date. *)
Theorem uptodate_needs_lowercase_hash (file : File) (w : world) :
  classify E file w = OK ->
  (forall c, c ∈ list_ascii_of_string (Hash file) ->
             c ∈ list_ascii_of_string hextable) /\
  Nat.Even (String.length (Hash file)).
Proof.
  intros HOK. rewrite classify_verdict_of in HOK.
  apply verdict_of_OK in HOK as (f & _ & _ & _ & _ & Hd).
  rewrite <- Hd. unfold digest. split.
  - intros c. apply hex_EncodeToString_chars.
  - rewrite length_hex_EncodeToString. now exists (length (blake2b_256 E (f_data f))).
Qed.

(** X6. Verification never creates, removes or rewrites a file: after
    [verifyFiles] every path holds the same content with the same mode as
    before, the only writes it attempts are [os.Chtimes] on entries found
    up to date, with the time the manifest records, and verifying again
    in the world it leaves gives the same queue. *)
Theorem verifyFiles_only_sets_times (files : list File) (w : world) :
  same_files (fs w) (fs (snd (verifyFiles E files w))) /\
  (exists t, trace (snd (verifyFiles E files w)) = trace w ++ t /\
     Forall (fun ev => forall p, written_path ev = Some p ->
               exists e, e ∈ files /\ classify E e w = OK /\
                         ev = EvChtimes (Path e) (LastModified e)) t) /\
  fst (verifyFiles E files (snd (verifyFiles E files w))) = fst (verifyFiles E files w).
Proof.
  destruct (verifyFiles_from_effect E files [] w) as (_ & Hsame & _ & t & Ht & HQ).
  fold (verifyFiles E files w) in Hsame, Ht.
  split; [exact Hsame |]. split.
  - exists t. split; [exact Ht |].
    eapply Forall_impl; [exact HQ |].
    intros ev (e & He & Hev) p Hp.
    destruct ev; cbn in Hp, Hev; try discriminate; try contradiction.
    destruct Hev as (-> & Hv & ->). now exists e.
  - rewrite !verifyFiles_queue. apply list_filter_iff.
    intros e. now rewrite (classify_same_files E e _ _ Hsame).
Qed.

Lemma verifyFile_uptodate (file : File) (w : world) (f : fnode) :
  classify E file w = OK ->
  chtimes_fails E (Path file) = false ->
  fs w !! Path file = Some f ->
  fs (snd (verifyFile E file w)) !! Path file
  = Some (mkfile (f_data f) (f_mode f) (Chtimes_mtime (LastModified file) (f_mtime f))).
Proof.
  intros HOK Hch Hf.
  rewrite classify_verdict_of in HOK.
  apply verdict_of_OK in HOK as (g & Hg & Hop & Hrd & Hn & Hd).
  unfold local_path, digest in *. apply String.eqb_eq in Hd.
  unfold verifyFile. step_ops.
  rewrite Hg; cbn. rewrite Hop; cbn. rewrite Hg; cbn.
  destruct (stat_fails E (install_join E (Path file))) eqn:Hst; cbn;
    [| destruct (Z.eqb_spec (f_mode g) mode_0444) as [Hm | Hm]; cbn;
       [exfalso; apply Hn; now split |] ];
    rewrite Hg; cbn; rewrite Hrd; cbn; rewrite Hd; cbn; rewrite Hch; cbn;
    rewrite Hf; cbn; apply lookup_insert_eq.
Qed.

Lemma verifyFiles_from_uptodate (files acc : list File) (w : world) (e : File) (f : fnode) :
  NoDup (map Path files) ->
  e ∈ files ->
  classify E e w = OK ->
  chtimes_fails E (Path e) = false ->
  fs w !! Path e = Some f ->
  fs (snd (verifyFiles_from E acc files w)) !! Path e
  = Some (mkfile (f_data f) (f_mode f) (Chtimes_mtime (LastModified e) (f_mtime f))).
Proof.
  revert acc w f. induction files as [|x rest IH]; intros acc w f Hnd He HOK Hch Hf.
  - now apply elem_of_nil in He.
  - cbn [map] in Hnd. apply NoDup_cons in Hnd as [Hx Hnd].
    cbn [verifyFiles_from]. unfold bind.
    pose proof (verifyFile_effect E x w) as (Hsame & Hother & _).
    pose proof (verifyFile_uptodate x w) as Hup.
    destruct (verifyFile E x w) as [v w1]. cbn [snd] in *.
    set (acc' := match v with NeedDownload => acc ++ [x] | _ => acc end).
    assert (Hloop : (match v with
                     | NeedDownload => verifyFiles_from E (acc ++ [x]) rest
                     | _ => verifyFiles_from E acc rest
                     end) w1 = verifyFiles_from E acc' rest w1)
      by (subst acc'; now destruct v).
    rewrite Hloop. clear Hloop.
    apply elem_of_cons in He as [-> | He].
    + destruct (verifyFiles_from_effect E rest acc' w1) as (_ & _ & Hkeep & _).
      rewrite Hkeep; [now apply Hup |].
      intros e' He' Hp. exfalso. apply Hx. rewrite <- Hp.
      now apply (list_elem_of_fmap_2 Path).
    + assert (Hne : Path e <> Path x).
      { intros Heq. apply Hx. rewrite <- Heq. now apply (list_elem_of_fmap_2 Path). }
      apply IH; try assumption.
      * now rewrite <- (classify_same_files E e w w1 Hsame).
      * now rewrite Hother.
Qed.

(** X7. With distinct paths in the manifest, an entry found up to date
    ends the verification with the file at its path holding the same
    content and mode, and the modification time that [os.Chtimes] makes
    of the time the manifest records (when [os.Chtimes] does not fail):
    that time in nanoseconds if these fit in an [int64], which is the
    case from the year 1678 to 2262; the wrapped-around value of
    [UnixNano] otherwise; and the time the file had if the recorded time
    is the zero time, which [os.Chtimes] leaves out. *)
Theorem uptodate_entry_gets_manifest_time (files : list File) (w : world)
    (e : File) (f : fnode) :
  NoDup (map Path files) ->
  e ∈ files ->
  classify E e w = OK ->
  chtimes_fails E (Path e) = false ->
  fs w !! Path e = Some f ->
  fs (snd (verifyFiles E files w)) !! Path e
  = Some (mkfile (f_data f) (f_mode f) (Chtimes_mtime (LastModified e) (f_mtime f))) /\
  (nano_fits (LastModified e) ->
   Chtimes_mtime (LastModified e) (f_mtime f) = LastModified e * 10 ^ 9) /\
  (LastModified e = zero_time_sec ->
   fs (snd (verifyFiles E files w)) !! Path e = Some f) /\
  (time_IsZero (LastModified e) = false ->
   Chtimes_mtime (LastModified e) (f_mtime f)
   = int64_of_uint64 ((LastModified e * 10 ^ 9) mod 2 ^ 64)).
Proof.
  intros Hnd He HOK Hch Hf. unfold verifyFiles.
  rewrite (verifyFiles_from_uptodate files [] w e f Hnd He HOK Hch Hf).
  split; [reflexivity |]. split; [apply Chtimes_mtime_fits |]. split.
  - intros ->. rewrite Chtimes_mtime_zero. now destruct f.
  - intros Hz. unfold Chtimes_mtime. now rewrite Hz.
Qed.

(** X8. The verdict on an entry does not depend on the entries verified
    before it: the queue of a manifest in two parts is the queue of the
    first part followed by the queue of the second part, whether the
    second part is verified in the starting world or in the world that
    verifying the first part leaves. *)
Theorem verifyFiles_app (l1 l2 : list File) (w : world) :
  fst (verifyFiles E (l1 ++ l2) w)
  = fst (verifyFiles E l1 w) ++ fst (verifyFiles E l2 (snd (verifyFiles E l1 w))) /\
  fst (verifyFiles E l2 (snd (verifyFiles E l1 w))) = fst (verifyFiles E l2 w).
Proof.
  assert (Hsame : same_files (fs w) (fs (snd (verifyFiles E l1 w)))).
  { now destruct (verifyFiles_from_effect E l1 [] w) as (_ & Hsame & _). }
  assert (Heq : fst (verifyFiles E l2 (snd (verifyFiles E l1 w))) = fst (verifyFiles E l2 w)).
  { rewrite !verifyFiles_queue. apply list_filter_iff.
    intros e. now rewrite (classify_same_files E e _ _ Hsame). }
  split; [| exact Heq].
  rewrite Heq, !verifyFiles_queue. apply filter_app.
Qed.

End VerifierExtras.

(** ** Endpoints, URLs and the start of the run *)

Lemma replace_backslash_clean (s : string) :
  backslash ∉ list_ascii_of_string (replace_backslash s).
Proof.
  induction s as [|c s IH]; cbn [replace_backslash list_ascii_of_string].
  - apply not_elem_of_nil.
  - apply not_elem_of_cons. split; [| exact IH].
    destruct (Ascii.eqb_spec c backslash) as [-> | Hne]; [discriminate | congruence].
Qed.

Lemma length_replace_backslash (s : string) :
  String.length (replace_backslash s) = String.length s.
Proof. induction s as [|c s IH]; cbn; [reflexivity | now rewrite IH]. Qed.

Lemma replace_backslash_id (s : string) :
  backslash ∉ list_ascii_of_string s -> replace_backslash s = s.
Proof.
  induction s as [|c s IH]; cbn [replace_backslash list_ascii_of_string]; intros H.
  - reflexivity.
  - apply not_elem_of_cons in H as [Hc Hs].
    destruct (Ascii.eqb_spec c backslash) as [-> | _]; [congruence |].
    now rewrite IH.
Qed.

(** X9. With at least one endpoint online a worker always has a URL (the
    index [id%onlineServers] is in range), the endpoint is one of the
    online ones and depends on the worker only through [id] modulo their
    number, and the URL has the length of the formatted one and no
    backslash in it. *)
Theorem worker_url (onlineCDNs : list Z) (id : nat) (j : File) :
  onlineCDNs <> [] ->
  exists cdn url,
    cdn ∈ onlineCDNs /\
    formattedUrl_of onlineCDNs id j = Some url /\
    formattedUrl_of onlineCDNs (id + length onlineCDNs) j = Some url /\
    (backslash ∉ list_ascii_of_string url) /\
    String.length url = String.length (cdn_url cdn (Path j)).
Proof.
  intros Hne. unfold formattedUrl_of.
  destruct (worker_index_in_range onlineCDNs id Hne) as (cdn & Hin & -> & ->).
  exists cdn, (replace_backslash (cdn_url cdn (Path j))).
  split; [assumption |]. split; [reflexivity |]. split; [reflexivity |].
  split; [apply replace_backslash_clean | apply length_replace_backslash].
Qed.

Section RunStart.
Variable E : Env.

Lemma candidates : map Z.of_nat (seq 0 NumCDNs) = [0; 1; 2; 3; 4].
Proof. reflexivity. Qed.

Lemma in_candidates (i : Z) : i ∈ [0; 1; 2; 3; 4] <-> 0 <= i < 5.
Proof.
  rewrite !elem_of_cons, elem_of_nil. lia.
Qed.

Lemma checkCDNStatus_count :
  snd (checkCDNStatus E) = Z.of_nat (length (fst (checkCDNStatus E))).
Proof. reflexivity. Qed.

Lemma checkCDNStatus_elem (i : Z) :
  i ∈ fst (checkCDNStatus E) <->
  0 <= i < 5 /\ http_head E (cdn_url i EmptyString) = Some 200.
Proof.
  unfold checkCDNStatus. cbn [fst]. rewrite candidates.
  rewrite list_elem_of_filter, in_candidates. tauto.
Qed.

(** X10. [checkCDNStatus] returns, in increasing order, exactly the
    indices in [0, 5) whose [HEAD] request returned without error and
    with status 200 (an error and any other status leave the endpoint
    out), together with their number, which is at most 5. *)
Theorem checkCDNStatus_online :
  snd (checkCDNStatus E) = Z.of_nat (length (fst (checkCDNStatus E))) /\
  0 <= snd (checkCDNStatus E) <= 5 /\
  fst (checkCDNStatus E) `sublist_of` [0; 1; 2; 3; 4] /\
  forall i, i ∈ fst (checkCDNStatus E) <->
            0 <= i < 5 /\ http_head E (cdn_url i EmptyString) = Some 200.
Proof.
  unfold checkCDNStatus. cbn [fst snd]. rewrite candidates.
  split; [reflexivity |]. split; [| split].
  - pose proof (length_filter (fun i => http_head E (cdn_url i EmptyString) = Some 200)
                  [0; 1; 2; 3; 4]) as H.
    cbn [length] in H. lia.
  - apply sublist_filter.
  - intros i. rewrite list_elem_of_filter, in_candidates. tauto.
Qed.

Lemma online_nonempty : snd (checkCDNStatus E) <> 0 -> fst (checkCDNStatus E) <> [].
Proof. rewrite checkCDNStatus_count. intros Hne Hnil. now rewrite Hnil in Hne. Qed.

Lemma no_server_iff :
  snd (checkCDNStatus E) = 0 <->
  forall i, 0 <= i < 5 -> http_head E (cdn_url i EmptyString) <> Some 200.
Proof.
  pose proof checkCDNStatus_elem as Hin. rewrite checkCDNStatus_count. split.
  - intros H0 i Hi Hhead.
    assert (Hi' : i ∈ fst (checkCDNStatus E)) by now apply Hin.
    destruct (fst (checkCDNStatus E)); [now apply elem_of_nil in Hi' | cbn in H0; lia].
  - intros Hall. destruct (fst (checkCDNStatus E)) as [|i l] eqn:Hl; [reflexivity |].
    exfalso. destruct (proj1 (Hin i)) as [Hi Hhead]; [left |]. now apply (Hall i).
Qed.

(** X11. [main] ends with "There are no download servers online."
    exactly when none of the five endpoints answers its [HEAD] request
    with status 200, and then it has done nothing else: no request for
    the manifest, no access to the local files. *)
Theorem main_without_servers (fuel : nat) (sched : nat -> nat) (w : world) :
  (fst (main E fuel sched w) = FatalNoServers <->
   forall i, 0 <= i < 5 -> http_head E (cdn_url i EmptyString) <> Some 200) /\
  (fst (main E fuel sched w) = FatalNoServers -> snd (main E fuel sched w) = w).
Proof.
  rewrite <- no_server_iff. rewrite main_unfold.
  destruct (Z.eqb_spec (snd (checkCDNStatus E)) 0) as [H0 | Hne].
  - cbn. split; [tauto | reflexivity].
  - assert (Hother : fst (match fetchVersionFile E (fst (checkCDNStatus E)) with
                          | Some (Some vf, None) =>
                              let '(queue, w1) := verifyFiles E (Files vf) w in
                              let '(r, w2) :=
                                downloadFiles E fuel (fst (checkCDNStatus E)) sched queue w1 in
                              (match r with Some jobs => Ran queue jobs | None => Stuck end, w2)
                          | Some (_, _) => (FatalVersionFile, w)
                          | None => (Stuck, w)
                          end) <> FatalNoServers).
    { destruct (fetchVersionFile E _) as [[[vf|] [e|]]|]; cbn; try discriminate.
      destruct (verifyFiles E (Files vf) w) as [queue w1].
      destruct (downloadFiles E fuel _ sched queue w1) as [[jobs|] w2]; discriminate. }
    split; [split; [intros H | intros H]; contradiction | intros H; contradiction].
Qed.

Lemma retry_loop_ends (fuel : nat) (j : File) (url : string) (w : world) :
  (2 <= fuel)%nat -> fst (retry_loop E fuel j url false w) <> None.
Proof.
  intros Hfuel. destruct fuel as [|[|fuel]]; [lia | lia |].
  cbn [retry_loop]. unfold bind.
  destruct (downloadFile E j url false w) as [[[e1|]|] w1];
    unfold println, emit, ret; cbn [fst snd]; try discriminate.
  match goal with
  | |- context [downloadFile E j url true ?x] =>
      destruct (downloadFile E j url true x) as [[[e2|]|] w2]
  end; cbn [fst snd]; discriminate.
Qed.

Lemma downloadFiles_from_ends (fuel : nat) (cdns : list Z) (sched : nat -> nat)
    (queue : list File) (k : nat) (w : world) :
  (2 <= fuel)%nat -> cdns <> [] ->
  fst (downloadFiles_from E fuel cdns sched k queue w) <> None.
Proof.
  intros Hfuel Hne. revert k w.
  induction queue as [|j rest IH]; intros k w; cbn [downloadFiles_from].
  - discriminate.
  - unfold bind, worker_job.
    unfold formattedUrl_of.
    destruct (worker_index_in_range cdns (sched k) Hne) as (cdn & _ & -> & _).
    set (url := replace_backslash (cdn_url cdn (Path j))).
    pose proof (retry_loop_ends fuel j url w Hfuel) as Hr.
    unfold DefaultForceDownload.
    destruct (retry_loop E fuel j url false w) as [[r|] w1]; [| contradiction].
    specialize (IH (S k) w1).
    destruct r; cbn; try discriminate;
      destruct (downloadFiles_from E fuel cdns sched (S k) rest w1) as [[rs|] w2];
      cbn in *; congruence.
Qed.

(** With room for two iterations of the retry loop a run ends in one of
    three ways. *)
Lemma main_ends (fuel : nat) (sched : nat -> nat) (w : world) :
  (2 <= fuel)%nat ->
  main E fuel sched w = (FatalNoServers, w) \/
  main E fuel sched w = (FatalVersionFile, w) \/
  exists cdn cdns body queue w1 jobs w2,
    fst (checkCDNStatus E) = cdn :: cdns /\
    getFile E (cdn_url cdn "version.bin") = (body, None) /\
    verifyFiles E (Files (decodeVersionFile body)) w = (queue, w1) /\
    downloadFiles E fuel (cdn :: cdns) sched queue w1 = (Some jobs, w2) /\
    main E fuel sched w = (Ran queue jobs, w2).
Proof.
  intros Hfuel. rewrite main_unfold.
  destruct (Z.eqb_spec (snd (checkCDNStatus E)) 0) as [H0 | Hne]; [now left |].
  right. apply online_nonempty in Hne.
  unfold fetchVersionFile.
  destruct (fst (checkCDNStatus E)) as [|cdn cdns] eqn:Hl; [contradiction |].
  destruct (getFile E _) as [data [e|]] eqn:Hget; [now left |]. right.
  destruct (verifyFiles E _ w) as [queue w1] eqn:Hv.
  pose proof (downloadFiles_from_ends fuel (cdn :: cdns) sched queue 0 w1 Hfuel Hne) as Hd.
  unfold downloadFiles in *.
  destruct (downloadFiles_from E fuel (cdn :: cdns) sched 0 queue w1) as [[jobs|] w2] eqn:Hdl;
    [| contradiction].
  exists cdn, cdns, data, queue, w1, jobs, w2. repeat split; assumption.
Qed.

(** X12. A run never gets stuck: with room for two iterations of the
    retry loop, [main] ends in one of the two fatal messages or after
    the dispatch; the index expressions [onlineCDNs[0]] and
    [onlineCDNs[id%onlineServers]] are never out of range. *)
Theorem main_never_stuck (fuel : nat) (sched : nat -> nat) (w : world) :
  (2 <= fuel)%nat -> fst (main E fuel sched w) <> Stuck.
Proof.
  intros Hfuel.
  destruct (main_ends fuel sched w Hfuel)
    as [-> | [-> | (cdn & cdns & body & queue & w1 & jobs & w2 & _ & _ & _ & _ & ->)]];
    discriminate.
Qed.

(** X13. [main] reads the manifest from the lowest-numbered endpoint that
    is online, whatever the other endpoints answer: the first element of
    the list of [checkCDNStatus] is online and no endpoint before it is,
    and [fetchVersionFile] either fails with the error of [getFile] on
    that endpoint's [version.bin] or decodes the body it got from there. *)
Theorem manifest_from_lowest_online (cdn : Z) (rest : list Z) :
  fst (checkCDNStatus E) = cdn :: rest ->
  http_head E (cdn_url cdn EmptyString) = Some 200 /\
  (forall i, 0 <= i < cdn -> http_head E (cdn_url i EmptyString) <> Some 200) /\
  (fetchVersionFile E (cdn :: rest) = Some (None, Some ErrNetwork) \/
   exists body,
     http_do E (mkRequest (cdn_url cdn "version.bin") None) = Response body true /\
     fetchVersionFile E (cdn :: rest) = Some (Some (decodeVersionFile body), None)).
Proof.
  intros Hl. split; [| split].
  - apply (checkCDNStatus_elem cdn). rewrite Hl. left.
  - revert Hl. unfold checkCDNStatus. cbn [fst]. rewrite candidates.
    rewrite !filter_cons, filter_nil.
    repeat case_decide; intros [= <- <-]; intros i Hi;
      (assert (Hcase : i = 0 \/ i = 1 \/ i = 2 \/ i = 3) by lia);
      destruct Hcase as [-> | [-> | [-> | ->]]]; solve [assumption | lia].
  - unfold fetchVersionFile, getFile.
    destruct (http_do E _) as [|body [|]] eqn:Hdo; [now left | | now left].
    right. now exists body.
Qed.

(** X14. A run changes the data or the mode of a file only at the paths
    of queued entries and of their partial files: with room for two
    iterations of the retry loop, a run that ends in a fatal message
    leaves the world as it was, and after a run that reaches the dispatch
    every path that is neither the path of a queued entry nor that path
    followed by [.tmp] holds the data and mode it had (a missing file is
    still missing). *)
Theorem main_changes_only_queued_paths (fuel : nat) (sched : nat -> nat) (w : world) :
  (2 <= fuel)%nat ->
  match fst (main E fuel sched w) with
  | Ran queue jobs =>
      forall q, (forall j, j ∈ queue -> q <> Path j +:+ ".tmp" /\ q <> Path j) ->
                file_body <$> fs (snd (main E fuel sched w)) !! q = file_body <$> fs w !! q
  | _ => snd (main E fuel sched w) = w
  end.
Proof.
  intros Hfuel.
  destruct (main_ends fuel sched w Hfuel)
    as [-> | [-> | (cdn & cdns & body & queue & w1 & jobs & w2 & _ & _ & Hv & Hd & ->)]];
    try reflexivity.
  cbn [fst snd]. intros q Hq.
  destruct (verifyFiles_from_effect E (Files (decodeVersionFile body)) [] w)
    as (_ & Hsame & _).
  fold (verifyFiles E (Files (decodeVersionFile body)) w) in Hsame. rewrite Hv in Hsame.
  destruct (downloadFiles_from_footprint E fuel (cdn :: cdns) sched queue 0 w1) as (_ & Hk).
  fold (downloadFiles E fuel (cdn :: cdns) sched queue w1) in Hk. rewrite Hd in Hk.
  cbn [snd] in *. rewrite (Hk q Hq). symmetry. apply Hsame.
Qed.

End RunStart.

(** ** Further properties of the fetcher *)

Section FetcherExtras.
Variable E : Env.

(** X15. In a fault-free environment a fresh download (a forced call,
    or a call that finds no partial file) whose request is answered
    completely with a payload the codec accepts returns [nil] and leaves
    the decoded content at the final path, with the mode the file had
    before (the mode of a new file if there was none); the partial file
    is removed and no other path is changed.  The modification time is
    the time that [os.Chtimes] makes of the time in the manifest: that
    time, in nanoseconds, where these fit in an [int64], and the time of
    the write where the manifest has the zero time. *)
Theorem fresh_download_installs (file : File) (url : string) (force : bool) (w : world)
    (body plain : list Z) :
  new_request_ok E url = true ->
  fault_free E file ->
  force = true \/ fs w !! (Path file +:+ ".tmp") = None ->
  http_do E (mkRequest url None) = Response body true ->
  s2_decode E body = (plain, None) ->
  fst (downloadFile E file url force w) = Returned None /\
  fs (snd (downloadFile E file url force w)) !! Path file
  = Some (mkfile plain (mode_after_create E (fs w) (Path file))
                 (Chtimes_mtime (LastModified file) (now E))) /\
  fs (snd (downloadFile E file url force w)) !! (Path file +:+ ".tmp") = None /\
  (forall q, q <> Path file -> q <> Path file +:+ ".tmp" ->
             fs (snd (downloadFile E file url force w)) !! q = fs w !! q) /\
  (nano_fits (LastModified file) ->
   Chtimes_mtime (LastModified file) (now E) = LastModified file * 10 ^ 9) /\
  (LastModified file = zero_time_sec ->
   Chtimes_mtime (LastModified file) (now E) = now E).
Proof.
  intros Hurl Hff Hcase Hdo Hdec.
  destruct (downloadFile_fresh E file url force w body plain Hurl Hff Hcase Hdo Hdec)
    as (Hr & Hfs & Htmp & Hk).
  split; [exact Hr |]. split; [exact Hfs |]. split; [exact Htmp |]. split; [exact Hk |].
  split; [apply Chtimes_mtime_fits | intros ->; apply Chtimes_mtime_zero].
Qed.

(** X16. Resume correctness.  In a fault-free environment, let the
    partial file hold the first bytes of a payload and let the endpoint
    honour the range, answering the resumed request with the rest of the
    payload and the full request with the whole payload.  Then the
    resumed call and the forced call both return [nil] and leave the same
    file at the final path (the decoded content, the mode as before, the
    time that [os.Chtimes] makes of the time in the manifest), and no
    partial file. *)
Theorem resume_installs_like_fresh (file : File) (url : string) (w : world)
    (f : fnode) (rest plain : list Z) :
  new_request_ok E url = true ->
  fault_free E file ->
  fs w !! (Path file +:+ ".tmp") = Some f ->
  http_do E (mkRequest url (Some (Z.of_nat (length (f_data f))))) = Response rest true ->
  http_do E (mkRequest url None) = Response (f_data f ++ rest) true ->
  s2_decode E (f_data f ++ rest) = (plain, None) ->
  fst (downloadFile E file url false w) = Returned None /\
  fst (downloadFile E file url true w) = Returned None /\
  fs (snd (downloadFile E file url false w)) !! Path file
  = Some (mkfile plain (mode_after_create E (fs w) (Path file))
                 (Chtimes_mtime (LastModified file) (now E))) /\
  fs (snd (downloadFile E file url false w)) !! Path file
  = fs (snd (downloadFile E file url true w)) !! Path file /\
  fs (snd (downloadFile E file url false w)) !! (Path file +:+ ".tmp") = None /\
  fs (snd (downloadFile E file url true w)) !! (Path file +:+ ".tmp") = None.
Proof.
  intros Hurl Hff Hf Hrange Hfull Hdec.
  pose proof Hff as (Hst & Hap & Hct & _).
  set (w0 := fun force => mkWorld (fs w) (trace w ++ [EvDownloadFile (Path file) url force])).
  destruct (fetch_partial_resume_result E file url (w0 false) f rest Hurl Hst Hap Hf Hrange)
    as (Hnone1 & Htf1).
  destruct (downloadFile_installs E file url false w _ plain Hff Hnone1 Htf1 Hdec)
    as (Hr1 & Hfs1 & Htmp1).
  destruct (fetch_partial_fresh_result E file url true (w0 true) (f_data f ++ rest)
              Hurl Hct (or_introl eq_refl) Hfull) as (Hnone2 & mode & Htf2).
  destruct (downloadFile_installs E file url true w (mkfile (f_data f ++ rest) mode (now E))
              plain Hff Hnone2 Htf2 Hdec) as (Hr2 & Hfs2 & Htmp2).
  repeat split; try assumption. now rewrite Hfs1, Hfs2.
Qed.

End FetcherExtras.

(** ** Further properties of the dispatcher *)

Lemma done_count_app (t1 t2 : list event) :
  done_count (t1 ++ t2) = (done_count t1 + done_count t2)%nat.
Proof. unfold done_count. now rewrite omap_app, length_app. Qed.

Lemma done_count_none (Q : event -> Prop) (t : list event) :
  ~ Q EvDone -> Forall Q t -> done_count t = 0%nat.
Proof.
  intros HQ. induction 1 as [|e t He _ IH]; [reflexivity |].
  destruct e; cbn; try exact IH. contradiction.
Qed.

Section DispatcherExtras.
Variable E : Env.

Lemma fetch_partial_done (file : File) (url : string) (force : bool) (w : world) :
  done_count (trace (snd (fetch_partial E file url force w))) = done_count (trace w).
Proof.
  destruct (fetch_partial_footprint E file url force w) as ((t & -> & HQ) & _).
  rewrite done_count_app, (done_count_none (transfer_event file) t); [lia | | assumption].
  intros H; exact H.
Qed.

Lemma install_done (file : File) (w : world) :
  done_count (trace (snd (install E file w)))
  = (done_count (trace w)
     + match fst (install E file w) with Returned None => 1 | _ => 0 end)%nat.
Proof.
  unfold install. step_ops. run_ops.
  all: cbn [fst snd trace]; rewrite ?done_count_app; cbn; lia.
Qed.

Lemma downloadFile_done (file : File) (url : string) (force : bool) (w : world) :
  done_count (trace (snd (downloadFile E file url force w)))
  = (done_count (trace w)
     + match fst (downloadFile E file url force w) with Returned None => 1 | _ => 0 end)%nat.
Proof.
  rewrite downloadFile_unfold.
  set (w0 := mkWorld (fs w) (trace w ++ [EvDownloadFile (Path file) url force])).
  assert (H0 : done_count (trace w0) = done_count (trace w)).
  { subst w0. cbn [trace]. rewrite done_count_app. cbn. lia. }
  pose proof (fetch_partial_done file url force w0) as H1.
  assert (Hret : fst (fetch_partial E file url force w0) <> Some (Returned None)).
  { generalize w0. intros wx. unfold fetch_partial. step_ops. run_ops; cbn; congruence. }
  destruct (fetch_partial E file url force w0) as [[ended|] w1]; cbn [fst snd] in *.
  - rewrite H1, H0. destruct ended as [[e|]|]; cbn; try lia. congruence.
  - rewrite install_done, H1, H0. reflexivity.
Qed.

Lemma retry_loop_done (fuel : nat) (j : File) (url : string) (force : bool) (w : world) :
  done_count (trace (snd (retry_loop E fuel j url force w)))
  = (done_count (trace w)
     + match fst (retry_loop E fuel j url force w) with
       | Some r => acknowledged r
       | None => 0
       end)%nat.
Proof.
  revert force w. induction fuel as [|fuel IH]; intros force w; cbn [retry_loop].
  - cbn. lia.
  - unfold bind.
    pose proof (downloadFile_done j url force w) as Hd.
    destruct (downloadFile E j url force w) as [[[e|]|] w1]; cbn [fst snd] in *.
    + destruct force.
      * unfold println, emit, ret; cbn [fst snd trace].
        rewrite !done_count_app, Hd. cbn. lia.
      * unfold println, emit; cbn [fst snd].
        rewrite IH. cbn [trace]. rewrite done_count_app, Hd. cbn. lia.
    + cbn. rewrite Hd. lia.
    + cbn. rewrite Hd. lia.
Qed.

Lemma downloadFiles_from_done (fuel : nat) (cdns : list Z) (sched : nat -> nat)
    (queue : list File) (k : nat) (w : world) (jobs : list job_end) :
  fst (downloadFiles_from E fuel cdns sched k queue w) = Some jobs ->
  (length jobs <= length queue)%nat /\
  done_count (trace (snd (downloadFiles_from E fuel cdns sched k queue w)))
  = (done_count (trace w) + sum_list (map acknowledged jobs))%nat /\
  (JobExited ∉ jobs -> length jobs = length queue).
Proof.
  revert k w jobs. induction queue as [|j rest IH]; intros k w jobs; cbn [downloadFiles_from].
  - cbn. intros [= <-]. cbn. repeat split; try lia.
  - unfold bind, worker_job.
    destruct (formattedUrl_of cdns (sched k) j) as [url|]; [| cbn; discriminate].
    pose proof (retry_loop_done fuel j url DefaultForceDownload w) as Hd.
    destruct (retry_loop E fuel j url DefaultForceDownload w) as [[r|] w1];
      cbn [fst snd] in *; [| cbn; discriminate].
    specialize (IH (S k) w1).
    destruct r;
      try (destruct (downloadFiles_from E fuel cdns sched (S k) rest w1) as [[rs|] w2];
           cbn [fst snd ret option_map] in *; [| discriminate];
           intros [= <-]; destruct (IH rs eq_refl) as (Hl & Hc & Hall);
           cbn [length map sum_list sum_list_with acknowledged];
           split; [lia |]; split; [rewrite Hc, Hd; cbn; lia |];
           intros Hno; f_equal; apply Hall; intros Hin; apply Hno; now right).
    cbn. intros [= <-]. cbn. split; [lia |]. split; [rewrite Hd; cbn; lia |].
    intros Hno. exfalso. apply Hno. left.
Qed.

(** X17. The wait group is balanced.  A dispatch that ends makes at most
    one [wg.Done] call for each queued entry, so that the counter set by
    [wg.Add(len(toDownload))] never becomes negative; and when no job
    ended the process, every entry was processed and [wg.Done] was called
    exactly [len(toDownload)] times, so that [wg.Wait()] returns. *)
Theorem waitgroup_balanced (fuel : nat) (cdns : list Z) (sched : nat -> nat)
    (queue : list File) (w : world) (jobs : list job_end) :
  fst (downloadFiles E fuel cdns sched queue w) = Some jobs ->
  (done_count (trace (snd (downloadFiles E fuel cdns sched queue w)))
   <= done_count (trace w) + length queue)%nat /\
  (JobExited ∉ jobs ->
   length jobs = length queue /\
   done_count (trace (snd (downloadFiles E fuel cdns sched queue w)))
   = (done_count (trace w) + length queue)%nat).
Proof.
  unfold downloadFiles. intros Hjobs.
  destruct (downloadFiles_from_done fuel cdns sched queue 0 w jobs Hjobs) as (Hl & Hc & Hall).
  assert (Hsum : forall l, (sum_list (map acknowledged l) <= length l)%nat /\
                           (JobExited ∉ l -> sum_list (map acknowledged l) = length l)).
  { induction l as [|r l [IH1 IH2]]; [cbn; split; [lia | reflexivity] |].
    cbn [map sum_list sum_list_with length]. split.
    - destruct r; cbn; lia.
    - intros Hno. rewrite IH2 by (intros Hin; apply Hno; now right).
      destruct r; cbn; try lia. exfalso. apply Hno. left. }
  destruct (Hsum jobs) as [Hs1 Hs2]. split.
  - rewrite Hc. lia.
  - intros Hno. split; [now apply Hall |].
    rewrite Hc, Hs2, Hall by assumption. reflexivity.
Qed.

Lemma downloadFile_rejected (file : File) (url : string) (force : bool) (w : world) :
  new_request_ok E url = false ->
  downloadFile E file url force w
  = (Exited, mkWorld (fs w) (trace w ++ [EvDownloadFile (Path file) url force;
                                          EvStat (Path file +:+ ".tmp")])).
Proof.
  intros Hurl. rewrite downloadFile_unfold. unfold fetch_partial. step_ops.
  rewrite Hurl. cbn.
  destruct (fs w !! (Path file +:+ ".tmp")) as [f|]; cbn;
    [destruct (stat_fails E (Path file +:+ ".tmp")); cbn |];
    now rewrite <- app_assoc.
Qed.

(** X18. A URL that [http.NewRequest] rejects makes the job end the
    process in [log.Fatal] at once, in its first call of [downloadFile]:
    all the job has done by then is the [os.Stat] of the partial file; it
    has sent no request, changed no file and not called [wg.Done]. *)
Theorem rejected_url_exits_at_once (fuel : nat) (cdns : list Z) (id : nat)
    (j : File) (url : string) (w : world) :
  (0 < fuel)%nat ->
  formattedUrl_of cdns id j = Some url ->
  new_request_ok E url = false ->
  worker_job E fuel cdns id j w
  = (Some JobExited,
     mkWorld (fs w) (trace w ++ [EvDownloadFile (Path j) url false;
                                 EvStat (Path j +:+ ".tmp")])).
Proof.
  intros Hfuel Hu Hurl. destruct fuel as [|fuel]; [lia |].
  unfold worker_job. rewrite Hu. cbn [retry_loop]. unfold bind, DefaultForceDownload.
  rewrite (downloadFile_rejected j url false w Hurl). reflexivity.
Qed.

Lemma downloadFile_offline (file : File) (url : string) (force : bool) (w : world) :
  new_request_ok E url = true ->
  stat_fails E (Path file +:+ ".tmp") = false ->
  append_fails E (Path file +:+ ".tmp") = false ->
  create_fails E (Path file +:+ ".tmp") = false ->
  (forall r, http_do E (mkRequest url r) = DoError) ->
  let w' := snd (downloadFile E file url force w) in
  fst (downloadFile E file url force w) = Returned (Some ErrNetwork) /\
  fs w' !! Path file = fs w !! Path file /\
  (force = true ->
   exists mode, fs w' !! (Path file +:+ ".tmp") = Some (mkfile [] mode (now E))) /\
  (force = false ->
   match fs w !! (Path file +:+ ".tmp") with
   | Some f => fs w' !! (Path file +:+ ".tmp") = Some f
   | None => fs w' !! (Path file +:+ ".tmp") = Some (mkfile [] (create_mode E) (now E))
   end).
Proof.
  intros Hurl Hst Hap Hct Hdo. pose proof (tmp_ne (Path file)) as Hne.
  rewrite downloadFile_unfold. unfold fetch_partial. step_ops.
  rewrite Hurl, Hst. cbn.
  destruct force; destruct (fs w !! (Path file +:+ ".tmp")) as [f|] eqn:Hf; cbn;
    rewrite ?Hap, ?Hct; cbn; rewrite ?Hf; cbn; rewrite !Hdo; cbn.
  all: repeat split; try (intros; discriminate);
    rewrite ?lookup_insert_ne by congruence; try reflexivity; try assumption.
  all: intros _; try (eexists; apply lookup_insert_eq); try apply lookup_insert_eq.
  all: assumption.
Qed.

(** X19. A job that cannot reach its server loses its partial download.
    When the requests for the job's URL fail, the loop calls
    [downloadFile] twice and gives the job up; the forced second call has
    truncated the partial file, which is left behind empty, whatever it
    held before; the final path is as it was. *)
Theorem unreachable_server_empties_partial (fuel : nat) (j : File) (url : string)
    (w : world) :
  (2 <= fuel)%nat ->
  new_request_ok E url = true ->
  stat_fails E (Path j +:+ ".tmp") = false ->
  append_fails E (Path j +:+ ".tmp") = false ->
  create_fails E (Path j +:+ ".tmp") = false ->
  (forall r, http_do E (mkRequest url r) = DoError) ->
  let w' := snd (retry_loop E fuel j url false w) in
  fst (retry_loop E fuel j url false w) = Some JobAbandoned /\
  (exists mode, fs w' !! (Path j +:+ ".tmp") = Some (mkfile [] mode (now E))) /\
  fs w' !! Path j = fs w !! Path j.
Proof.
  intros Hfuel Hurl Hst Hap Hct Hdo. destruct fuel as [|[|fuel]]; [lia | lia |].
  cbn [retry_loop]. unfold bind.
  destruct (downloadFile_offline j url false w Hurl Hst Hap Hct Hdo) as (H1 & Hk1 & _).
  destruct (downloadFile E j url false w) as [r1 w1]; cbn [fst snd] in *. subst r1.
  unfold println, emit; cbn [fst snd].
  set (w2 := mkWorld (fs w1) _).
  destruct (downloadFile_offline j url true w2 Hurl Hst Hap Hct Hdo) as (H2 & Hk2 & Ht2 & _).
  destruct (downloadFile E j url true w2) as [r2 w3]; cbn [fst snd] in *. subst r2.
  cbn. split; [reflexivity |]. split; [now apply Ht2 |].
  rewrite Hk2. subst w2. cbn. exact Hk1.
Qed.

End DispatcherExtras.

(** ** Further runs of the model on the small environment *)

Lemma decoded_manifest_well_formed_witness :
  Forall is_byte [1; 2; 3] /\ wf_VersionFile (decodeVersionFile [1; 2; 3]).
Proof.
  assert (H : Forall is_byte [1; 2; 3]).
  { repeat (apply List.Forall_cons; [unfold is_byte; lia |]). apply List.Forall_nil. }
  split; [exact H |].
  exact (proj1 (decoded_manifest_well_formed [1; 2; 3] H)).
Defined.

Lemma trailing_bytes_ignored_witness :
  decodeVersionFile (encodeVersionFile sample_manifest ++ [1; 2; 3]) = sample_manifest.
Proof. exact (trailing_bytes_ignored sample_manifest [1; 2; 3] wf_sample_manifest). Defined.

Lemma missing_entries_are_zero_witness :
  decodeVersionFile (encodeVersionFile (mkVersionFile (replicate 16 0) 3 [sample_File]))
  = mkVersionFile (replicate 16 0) 3 [sample_File; zero_File; zero_File].
Proof.
  assert (H0 : 0 <= 2) by lia.
  assert (H1 : NumberOfFiles sample_manifest + 2 < 2 ^ 32) by (cbn; lia).
  exact (missing_entries_are_zero sample_manifest 2 wf_sample_manifest H0 H1).
Defined.

Lemma deobfuscate_by_chunks_witness :
  deobfuscate (replicate 255 0 ++ [1; 2])
  = deobfuscate (replicate 255 0) ++ deobfuscate [1; 2].
Proof.
  assert (H : Z.of_nat (length (replicate 255 (0 : Z))) = 255 * 1) by (vm_compute; reflexivity).
  exact (deobfuscate_by_chunks (replicate 255 0) [1; 2] 1 H).
Defined.

Lemma uptodate_needs_lowercase_hash_witness :
  classify offline_env sample_File installed_world = OK /\
  Nat.Even (String.length (Hash sample_File)).
Proof.
  assert (Hok : classify offline_env sample_File installed_world = OK)
    by (vm_compute; reflexivity).
  split; [exact Hok |].
  exact (proj2 (uptodate_needs_lowercase_hash offline_env sample_File installed_world Hok)).
Defined.

Lemma uptodate_entry_gets_manifest_time_witness :
  fs installed_world !! "a.bin" = Some (mkfile sample_content mode_0644 0) /\
  fs (snd (verifyFiles offline_env [sample_File] installed_world)) !! "a.bin"
  = Some (mkfile sample_content mode_0644 (1700000000 * 10 ^ 9)).
Proof.
  assert (Hnd : NoDup (map Path [sample_File])).
  { apply NoDup_cons. split; [apply not_elem_of_nil | apply NoDup_nil_2]. }
  assert (Hin : sample_File ∈ [sample_File]) by left.
  assert (Hok : classify offline_env sample_File installed_world = OK)
    by (vm_compute; reflexivity).
  assert (Hfits : nano_fits (LastModified sample_File)) by (unfold nano_fits; cbn; lia).
  split; [reflexivity |].
  destruct (uptodate_entry_gets_manifest_time offline_env [sample_File] installed_world
              sample_File (mkfile sample_content mode_0644 0) Hnd Hin Hok eq_refl eq_refl)
    as (Hfs & Htime & _).
  rewrite (Htime Hfits) in Hfs. exact Hfs.
Defined.

Lemma worker_url_witness :
  exists cdn url,
    cdn ∈ [0; 3] /\
    formattedUrl_of [0; 3] 5 sample_File = Some url /\
    formattedUrl_of [0; 3] (5 + 2) sample_File = Some url /\
    (backslash ∉ list_ascii_of_string url) /\
    String.length url = String.length (cdn_url cdn "a.bin").
Proof.
  assert (Hne : [0; 3] <> @nil Z) by discriminate.
  exact (worker_url [0; 3] 5 sample_File Hne).
Defined.

Lemma main_never_stuck_witness :
  (2 <= 2)%nat /\ fst (main sample_env 2 first_worker empty_world) <> Stuck.
Proof.
  assert (H : (2 <= 2)%nat) by lia.
  split; [exact H |].
  exact (main_never_stuck sample_env 2 first_worker empty_world H).
Defined.

Lemma manifest_from_lowest_online_witness :
  fst (checkCDNStatus lone_env) = [2] /\
  http_head lone_env (cdn_url 2 EmptyString) = Some 200 /\
  (forall i, 0 <= i < 2 -> http_head lone_env (cdn_url i EmptyString) <> Some 200).
Proof.
  assert (H : fst (checkCDNStatus lone_env) = [2]) by (vm_compute; reflexivity).
  split; [exact H |].
  destruct (manifest_from_lowest_online lone_env 2 [] H) as (Hon & Hlow & _).
  split; [exact Hon | exact Hlow].
Defined.

Lemma main_changes_only_queued_paths_witness :
  fst (main sample_env 2 first_worker notes_world) = Ran [sample_File] [JobInstalled] /\
  file_body <$> fs (snd (main sample_env 2 first_worker notes_world)) !! "notes.txt"
  = Some ([1], mode_0644).
Proof.
  assert (Hfuel : (2 <= 2)%nat) by lia.
  assert (Hrun : fst (main sample_env 2 first_worker notes_world)
                 = Ran [sample_File] [JobInstalled]) by (vm_compute; reflexivity).
  split; [exact Hrun |].
  pose proof (main_changes_only_queued_paths sample_env 2 first_worker notes_world Hfuel) as H.
  rewrite Hrun in H.
  apply (H "notes.txt").
  intros j Hj. apply list_elem_of_singleton in Hj. subst j. split; discriminate.
Defined.

Lemma fresh_download_installs_witness :
  fst (downloadFile sample_env sample_File "u" false empty_world) = Returned None /\
  fs (snd (downloadFile sample_env sample_File "u" false empty_world)) !! "a.bin"
  = Some (mkfile sample_content mode_0644 (1700000000 * 10 ^ 9)) /\
  fs (snd (downloadFile sample_env sample_File "u" false empty_world)) !! "a.bin.tmp" = None.
Proof.
  assert (Hff : fault_free sample_env sample_File) by (repeat split; reflexivity).
  assert (Hcase : false = true \/ fs empty_world !! (Path sample_File +:+ ".tmp") = None)
    by (right; reflexivity).
  assert (Hdec : s2_decode sample_env sample_payload = (sample_content, None))
    by (vm_compute; reflexivity).
  assert (Hfits : nano_fits (LastModified sample_File)) by (unfold nano_fits; cbn; lia).
  destruct (fresh_download_installs sample_env sample_File "u" false empty_world
              sample_payload sample_content eq_refl Hff Hcase eq_refl Hdec)
    as (Hr & Hfs & Htmp & _ & Htime & _).
  rewrite (Htime Hfits) in Hfs.
  split; [exact Hr |]. split; [exact Hfs | exact Htmp].
Defined.

Lemma resume_installs_like_fresh_witness :
  fs half_world !! "a.bin.tmp" = Some (mkfile [83] mode_0644 0) /\
  fst (downloadFile resumable_env sample_File "u" false half_world) = Returned None /\
  fs (snd (downloadFile resumable_env sample_File "u" false half_world)) !! "a.bin"
  = Some (mkfile sample_content mode_0644 (1700000000 * 10 ^ 9)) /\
  fs (snd (downloadFile resumable_env sample_File "u" false half_world)) !! "a.bin"
  = fs (snd (downloadFile resumable_env sample_File "u" true half_world)) !! "a.bin".
Proof.
  assert (Hff : fault_free resumable_env sample_File) by (repeat split; reflexivity).
  assert (Hf : fs half_world !! (Path sample_File +:+ ".tmp")
               = Some (mkfile [83] mode_0644 0)) by reflexivity.
  destruct (resume_installs_like_fresh resumable_env sample_File "u" half_world
              (mkfile [83] mode_0644 0) [97] sample_content
              eq_refl Hff Hf eq_refl eq_refl eq_refl)
    as (Hr & _ & Hfs & Hsame & _).
  split; [exact Hf |]. split; [exact Hr |]. split; [exact Hfs | exact Hsame].
Defined.

Lemma waitgroup_balanced_witness :
  fst (downloadFiles sample_env 2 [0] first_worker [sample_File] empty_world)
  = Some [JobInstalled] /\
  done_count (trace (snd (downloadFiles sample_env 2 [0] first_worker [sample_File]
                            empty_world))) = 1%nat.
Proof.
  assert (Hrun : fst (downloadFiles sample_env 2 [0] first_worker [sample_File] empty_world)
                 = Some [JobInstalled]) by (vm_compute; reflexivity).
  assert (Hno : JobExited ∉ [JobInstalled]).
  { intros H. apply list_elem_of_singleton in H. discriminate. }
  split; [exact Hrun |].
  destruct (waitgroup_balanced sample_env 2 [0] first_worker [sample_File] empty_world
              [JobInstalled] Hrun) as (_ & Hall).
  exact (proj2 (Hall Hno)).
Defined.

Lemma rejected_url_exits_at_once_witness :
  worker_job rejecting_env 1 [0] 0 sample_File empty_world
  = (Some JobExited,
     mkWorld ∅ [EvDownloadFile "a.bin" "https://cdn0.burningsw.to/a.bin" false;
                EvStat "a.bin.tmp"]).
Proof.
  assert (Hfuel : (0 < 1)%nat) by lia.
  assert (Hu : formattedUrl_of [0] 0 sample_File
               = Some "https://cdn0.burningsw.to/a.bin") by (vm_compute; reflexivity).
  exact (rejected_url_exits_at_once rejecting_env 1 [0] 0 sample_File
           "https://cdn0.burningsw.to/a.bin" empty_world Hfuel Hu eq_refl).
Defined.

Lemma unreachable_server_empties_partial_witness :
  fs partial_world !! "a.bin.tmp" = Some (mkfile [83; 97] mode_0644 0) /\
  fst (retry_loop offline_env 2 sample_File "u" false partial_world) = Some JobAbandoned /\
  exists mode,
    fs (snd (retry_loop offline_env 2 sample_File "u" false partial_world)) !! "a.bin.tmp"
    = Some (mkfile [] mode 1000).
Proof.
  assert (Hfuel : (2 <= 2)%nat) by lia.
  assert (Hdo : forall r, http_do offline_env (mkRequest "u" r) = DoError)
    by (intros r; reflexivity).
  destruct (unreachable_server_empties_partial offline_env 2 sample_File "u" partial_world
              Hfuel eq_refl eq_refl eq_refl eq_refl Hdo) as (Hr & Htmp & _).
  split; [reflexivity |]. split; [exact Hr | exact Htmp].
Defined.
